(** * Serverless image-processing pipeline: handlers and their contracts

    A shallow embedding of the three Cloud Functions of the repository

    - [upload_image]     (src/functions/upload-image/main.py),
    - [process_image]    (src/functions/process-image/main.py),
    - [log_notification] (src/functions/log-notification/main.py),

    followed by the properties their specification states about them.

    The handlers talk to an object store, a message queue and standard
    output.  These live in a [World] that every handler threads through;
    Python exceptions are the [Raise] outcome of a computation.  The Python
    and client libraries the handlers call (base64, json, Pillow, datetime)
    are not part of the repository: they are collected in a [PyLib] record
    over which the whole development is parametric.  Diagnostic calls to
    [logging] influence neither control flow nor the stores and queues and
    are left out. *)

From Stdlib Require Import ZArith Ascii String List Floats.SpecFloat.
From stdpp Require Import base option list strings pretty gmap fin_maps.

Local Open Scope Z_scope.
Local Open Scope string_scope.
Local Open Scope list_scope.

(** ** Python values *)

(** [bytes] objects. *)
Definition bytes := list Byte.byte.

(** The values [json.loads] produces: [None], [bool], [int], [float],
    [str], [list] and [dict].  A [dict] keeps its insertion order and has
    one entry per key, so it is an association list read from the left. *)
#[local] Set Warnings "-register-all".
Inductive json :=
| JNull
| JBool (b : bool)
| JInt (n : Z)
| JFloat (f : spec_float)
| JStr (s : string)
| JArr (l : list json)
| JObj (d : list (string * json)).

(** Truth value of an object, as tested by [not x] and [x or y]. *)
Definition truthy (v : json) : bool :=
  match v with
  | JNull => false
  | JBool b => b
  | JInt n => negb (Z.eqb n 0)
  | JFloat (S754_zero _) => false
  | JFloat _ => true
  | JStr s => negb (String.eqb s "")
  | JArr l => match l with [] => false | _ => true end
  | JObj d => match d with [] => false | _ => true end
  end.

(** [d.get(k, default)] on the entries of a [dict]. *)
Fixpoint assoc_get (d : list (string * json)) (k : string) (default : json) : json :=
  match d with
  | [] => default
  | (k', v) :: d' => if String.eqb k' k then v else assoc_get d' k default
  end.

(** ** Exceptions *)

Inductive exn :=
| ValueError
| BinasciiError        (* binascii.Error, raised by base64.b64decode *)
| UnicodeDecodeError
| JSONDecodeError      (* json.JSONDecodeError *)
| AttributeError
| TypeError
| NotFound             (* google.api_core.exceptions.NotFound *)
| ServiceError         (* any other failure of a remote call, timeouts included *)
| OtherError (name : string).

(** [isinstance(e, ValueError)]: [binascii.Error], [UnicodeDecodeError] and
    [json.JSONDecodeError] are subclasses of [ValueError]. *)
Definition is_ValueError (e : exn) : bool :=
  match e with
  | ValueError | BinasciiError | UnicodeDecodeError | JSONDecodeError => true
  | _ => false
  end.

(** ** The world outside a handler *)

(** A stored object: its bytes and the content type recorded with it. *)
Record Blob := { blob_data : bytes; blob_content_type : string }.

(** A message accepted by a topic. *)
Record Message := {
  msg_topic : string;
  msg_data  : bytes;
  msg_attrs : list (string * string);
}.

(** Every call a handler makes to the store or the queue, with its result. *)
Inductive Call :=
| CallDownload (bucket name : string) (ok : bool)
| CallUpload (bucket name : string) (blob : Blob) (ok : bool)
| CallPublish (topic : string) (data : bytes) (attrs : list (string * string)) (ok : bool).

Definition is_publish (c : Call) : bool :=
  match c with CallPublish _ _ _ _ => true | _ => false end.

Record World := {
  gcs    : gmap (string * string) Blob;   (* objects by (bucket, name) *)
  pubsub : list Message;                  (* accepted messages, oldest first *)
  stdout : list string;                   (* printed lines, oldest first *)
  calls  : list Call;                     (* calls made so far, oldest first *)
}.

(** ** Computations: state and exceptions *)

Inductive result (A : Type) :=
| Ok (a : A)
| Raise (e : exn).
Arguments Ok {A} a.
Arguments Raise {A} e.

Definition Run (A : Type) : Type := World -> result A * World.

Definition ret {A} (a : A) : Run A := fun w => (Ok a, w).

Definition raise {A} (e : exn) : Run A := fun w => (Raise e, w).

Definition bind {A B} (c : Run A) (k : A -> Run B) : Run B :=
  fun w =>
    match c w with
    | (Ok a, w') => k a w'
    | (Raise e, w') => (Raise e, w')
    end.

(** [try: c  except ...: h e] with a handler for every exception; a handler
    that re-raises is [raise]. *)
Definition try_except {A} (c : Run A) (h : exn -> Run A) : Run A :=
  fun w =>
    match c w with
    | (Ok a, w') => (Ok a, w')
    | (Raise e, w') => h e w'
    end.

(** Lifting the result of a library call. *)
Definition lift {A} (r : exn + A) : Run A :=
  match r with
  | inl e => raise e
  | inr a => ret a
  end.

Notation "'let*' x := c 'in' k" := (bind c (fun x => k))
  (at level 10, x name, c at level 100, k at level 200).

Definition record_call (c : Call) : Run unit :=
  fun w => (Ok tt, {| gcs := gcs w; pubsub := pubsub w; stdout := stdout w;
                      calls := calls w ++ [c] |}).

(** [print(line)]. *)
Definition print (line : string) : Run unit :=
  fun w => (Ok tt, {| gcs := gcs w; pubsub := pubsub w;
                      stdout := stdout w ++ [line]; calls := calls w |}).

(** ** Libraries, configuration and the environment of one invocation *)

(** The library functions the handlers call.  A call that raises returns
    its exception on the left. *)
Record PyLib := {
  image    : Type;                                   (* PIL.Image.Image *)
  datetime : Type;                                   (* datetime.datetime *)
  b64decode     : string -> exn + bytes;             (* base64.b64decode *)
  bytes_decode  : bytes -> exn + string;             (* bytes.decode("utf-8") *)
  str_encode    : string -> bytes;                   (* str.encode("utf-8") *)
  json_loads    : string -> exn + json;              (* json.loads *)
  json_dumps    : json -> string;                    (* json.dumps *)
  py_repr       : json -> string;                    (* str() of a non-str value *)
  Image_open    : bytes -> exn + image;              (* Image.open(io.BytesIO(b)) *)
  Image_convert : image -> string -> exn + image;    (* im.convert(mode) *)
  Image_save    : image -> string -> Z -> exn + bytes; (* im.save(buf, format=, quality=) *)
  strftime      : datetime -> string -> string;      (* dt.strftime(fmt) *)
  isoformat     : datetime -> string;                (* dt.isoformat() *)
}.

(** The values read from [os.environ] when a module is loaded. *)
Record Config := {
  UPLOADS_BUCKET   : string;
  PROCESSED_BUCKET : string;
  PUBSUB_TOPIC     : string;
  RESULTS_TOPIC    : string;
}.

(** A replacement field of an f-string: [str] values are inserted as they
    are, other values through their [str()]. *)
Definition py_str (L : PyLib) (v : json) : string :=
  match v with
  | JStr s => s
  | _ => py_repr L v
  end.

(** What one invocation finds around it: the identifier [uuid.uuid4()]
    draws, the clock, and whether the store and the queue answer.  A
    publish that fails may have queued its message all the same: the wait
    for the acknowledgement can fail after the message was handed over. *)
Record Env (L : PyLib) := {
  env_uuid4        : string;
  env_now          : datetime L;
  gcs_read_ok      : bool;
  gcs_write_ok     : bool;
  pubsub_ok        : bool;
  pubsub_queued_on_failure : bool;
  pubsub_message_id : string;
}.
Arguments env_uuid4 {L} _.
Arguments env_now {L} _.
Arguments gcs_read_ok {L} _.
Arguments gcs_write_ok {L} _.
Arguments pubsub_ok {L} _.
Arguments pubsub_queued_on_failure {L} _.
Arguments pubsub_message_id {L} _.

Section Clients.
Context {L : PyLib} (env : Env L).

(** [client.bucket(bucket).blob(name).upload_from_file(stream, content_type=...)]:
    the object is stored under [(bucket, name)], replacing what was there;
    a failed call stores nothing and raises. *)
Definition gcs_upload (bucket name : string) (blob : Blob) : Run unit :=
  if gcs_write_ok env then
    fun w => (Ok tt, {| gcs := <[(bucket, name) := blob]> (gcs w);
                        pubsub := pubsub w; stdout := stdout w;
                        calls := calls w ++ [CallUpload bucket name blob true] |})
  else
    let* _ := record_call (CallUpload bucket name blob false) in raise ServiceError.

(** [client.bucket(bucket).blob(name).download_as_bytes()]: one request to
    the store, answered with the bytes of the object or with [NotFound].
    The bucket is taken to be one the client can name; what the client
    makes of a name that no bucket has is not modelled, see
    [ProcessImage.client_name]. *)
Definition gcs_download (bucket name : string) : Run bytes :=
  if gcs_read_ok env then
    fun w =>
      match gcs w !! (bucket, name) with
      | Some blob =>
          (Ok (blob_data blob),
           {| gcs := gcs w; pubsub := pubsub w; stdout := stdout w;
              calls := calls w ++ [CallDownload bucket name true] |})
      | None =>
          (Raise NotFound,
           {| gcs := gcs w; pubsub := pubsub w; stdout := stdout w;
              calls := calls w ++ [CallDownload bucket name false] |})
      end
  else
    let* _ := record_call (CallDownload bucket name false) in raise ServiceError.

(** [publisher.publish(topic, data=data, **attrs)] hands the message to the
    client, and [future.result(timeout=10)] waits for the acknowledgement
    and returns the identifier the service gave the message.  When either
    raises, the handler sees one failure; the message is in the queue or
    not, as [pubsub_queued_on_failure] tells. *)
Definition publish (topic : string) (data : bytes)
    (attrs : list (string * string)) : Run string :=
  let message := {| msg_topic := topic; msg_data := data; msg_attrs := attrs |} in
  if pubsub_ok env then
    fun w => (Ok (pubsub_message_id env),
              {| gcs := gcs w;
                 pubsub := pubsub w ++ [message];
                 stdout := stdout w;
                 calls := calls w ++ [CallPublish topic data attrs true] |})
  else
    fun w => (Raise ServiceError,
              {| gcs := gcs w;
                 pubsub := if pubsub_queued_on_failure env
                           then pubsub w ++ [message] else pubsub w;
                 stdout := stdout w;
                 calls := calls w ++ [CallPublish topic data attrs false] |}).
End Clients.

(** ** Strings: [str.lower], [str.rfind], [os.path.splitext]

    Text is modelled by [string], a sequence of 8-bit characters; case
    conversion acts on the letters A-Z. *)

Definition ascii_lower (c : ascii) : ascii :=
  let n := N_of_ascii c in
  if ((65 <=? n) && (n <=? 90))%N then ascii_of_N (n + 32) else c.

Fixpoint lower (s : string) : string :=
  match s with
  | EmptyString => EmptyString
  | String c s' => String (ascii_lower c) (lower s')
  end.

(** [s.rfind(c)]: the index of the last [c] in [s], or -1. *)
Fixpoint rfind_from (i : Z) (found : Z) (c : ascii) (s : string) : Z :=
  match s with
  | EmptyString => found
  | String a s' => rfind_from (i + 1) (if Ascii.eqb a c then i else found) c s'
  end.

Definition rfind (c : ascii) (s : string) : Z := rfind_from 0 (-1) c s.

(** The loop of [genericpath._splitext] that skips the leading dots of the
    last path component: [true] when some character from [filenameIndex]
    up to [dotIndex] (excluded) is not a dot; [n] counts the iterations
    left. *)
Fixpoint has_stem (p : string) (filenameIndex : nat) (n : nat) : bool :=
  match n with
  | O => false
  | S n' =>
      match String.get filenameIndex p with
      | Some c => if Ascii.eqb c "." then has_stem p (S filenameIndex) n' else true
      | None => true
      end
  end.

(** [os.path.splitext(p)] on a POSIX system ([sep = "/"], no [altsep]). *)
Definition splitext (p : string) : string * string :=
  let sepIndex := rfind "/" p in
  let dotIndex := rfind "." p in
  if (sepIndex <? dotIndex)%Z
     && has_stem p (Z.to_nat (sepIndex + 1)) (Z.to_nat (dotIndex - (sepIndex + 1)))
  then (String.substring 0 (Z.to_nat dotIndex) p,
        String.substring (Z.to_nat dotIndex) (String.length p - Z.to_nat dotIndex) p)
  else (p, "").

(** [x or default] for an optional string. *)
Definition or_default (x : option string) (default : string) : string :=
  match x with
  | Some s => if String.eqb s "" then default else s
  | None => default
  end.

(** ** upload-image/main.py *)

Module UploadImage.

(** [werkzeug.datastructures.FileStorage]: the name the client gave, the
    declared content type ([None] when the part has none) and the stream
    with its read position. *)
Record FileStorage := {
  filename     : string;
  content_type : option string;
  stream       : bytes;
  stream_pos   : nat;
}.

(** [bool(file)]: werkzeug defines the truth value of a [FileStorage] as
    that of its [filename]. *)
Definition file_bool (file : FileStorage) : bool :=
  negb (String.eqb (filename file) "").

(** [file.stream.seek(0)] followed by reading the stream to its end, which
    is what [upload_from_file] sends. *)
Definition seek (file : FileStorage) (pos : nat) : FileStorage :=
  {| filename := filename file; content_type := content_type file;
     stream := stream file; stream_pos := pos |}.

Definition read_stream (file : FileStorage) : bytes :=
  drop (stream_pos file) (stream file).

(** A request whose form data werkzeug has parsed.  The handler reads
    [request.files] outside its [try] blocks: a body that werkzeug refuses
    raises there, before any check of the file, and is not a value of this
    type. *)
Record Request := {
  method : string;
  files  : list (string * FileStorage);   (* request.files *)
}.

(** [request.files[name]], [None] standing for [name not in request.files]. *)
Fixpoint files_get (fs : list (string * FileStorage)) (name : string) : option FileStorage :=
  match fs with
  | [] => None
  | (k, f) :: fs' => if String.eqb k name then Some f else files_get fs' name
  end.

Inductive Body :=
| BodyText (s : string)
| BodyJson (j : json).

Record Response := {
  status  : Z;
  body    : Body;
  headers : list (string * string);
}.

(** [jsonify(d), code]. *)
Definition jsonify (d : list (string * json)) (code : Z) : Response :=
  {| status := code; body := BodyJson (JObj d); headers := [] |}.

Definition ALLOWED_EXTENSIONS : gset string :=
  {[ ".jpg"; ".jpeg"; ".png"; ".gif"; ".bmp"; ".webp"; ".tiff" ]}.

(** [str(sorted(ALLOWED_EXTENSIONS))]. *)
Definition sorted_ALLOWED_EXTENSIONS : string :=
  "['.bmp', '.gif', '.jpeg', '.jpg', '.png', '.tiff', '.webp']".

Section Handler.
Context {L : PyLib} (cfg : Config) (env : Env L).

(** The fields of the Processing Request message. *)
Definition message_data (upload_id object_name timestamp : string)
    (file : FileStorage) : json :=
  JObj [ ("upload_id",         JStr upload_id);
         ("bucket",            JStr (UPLOADS_BUCKET cfg));
         ("object_name",       JStr object_name);
         ("original_filename", JStr (filename file));
         ("content_type",      JStr (or_default (content_type file) "image/jpeg"));
         ("timestamp",         JStr timestamp) ].

(** Entry point: POST /v1/images/upload.  The two [try] blocks return
    from the handler in their [except] branch: they yield [Some response]
    there and [None] when the handler goes on. *)
Definition upload_image (request : Request) : Run Response :=
  (* Handle CORS preflight *)
  if String.eqb (method request) "OPTIONS" then
    ret {| status := 204; body := BodyText "";
           headers := [ ("Access-Control-Allow-Origin",  "*");
                        ("Access-Control-Allow-Methods", "POST");
                        ("Access-Control-Allow-Headers", "Content-Type, x-api-key") ] |}
  else if negb (String.eqb (method request) "POST") then
    ret (jsonify [("error", JStr "Method not allowed. Use POST.")] 405)
  else
    (* Validate file presence *)
    match files_get (files request) "image" with
    | None =>
        ret (jsonify [("error", JStr "Missing file. Send a multipart/form-data request with field name 'image'.")] 400)
    | Some file =>
        if negb (file_bool file) || String.eqb (filename file) "" then
          ret (jsonify [("error", JStr "Empty file or filename.")] 400)
        else
          (* Validate extension *)
          let ext := lower (snd (splitext (filename file))) in
          if negb (bool_decide (ext ∈ ALLOWED_EXTENSIONS)) then
            ret (jsonify [("error", JStr ("Unsupported file type '" +:+ ext +:+ "'. Allowed: "
                                          +:+ sorted_ALLOWED_EXTENSIONS))] 400)
          else
            (* Build unique GCS object name *)
            let upload_id   := env_uuid4 env in
            let timestamp   := strftime L (env_now env) "%Y%m%d_%H%M%S" in
            let object_name := timestamp +:+ "_" +:+ upload_id +:+ ext in
            (* Upload raw image to GCS *)
            let* stored :=
              try_except
                (let file' := seek file 0 in
                 let* _ := gcs_upload env (UPLOADS_BUCKET cfg) object_name
                             {| blob_data := read_stream file';
                                blob_content_type := or_default (content_type file) "image/jpeg" |} in
                 ret None)
                (fun _ => ret (Some (jsonify [("error", JStr "Failed to store image. Please retry.")] 500))) in
            match stored with
            | Some response => ret response
            | None =>
                (* Publish Pub/Sub message to trigger processing *)
                let* queued :=
                  try_except
                    (let* _ := publish env (PUBSUB_TOPIC cfg)
                                 (str_encode L (json_dumps L (message_data upload_id object_name timestamp file)))
                                 [("upload_id", upload_id)] in
                     ret None)
                    (fun _ => ret (Some (jsonify [("error", JStr "Image stored but failed to queue for processing.")] 500))) in
                match queued with
                | Some response => ret response
                | None =>
                    ret (jsonify [ ("upload_id",   JStr upload_id);
                                   ("object_name", JStr object_name);
                                   ("message",     JStr "Image accepted and queued for processing.");
                                   ("status",      JStr "PROCESSING") ] 202)
                end
            end
    end.
End Handler.

End UploadImage.

(** ** Pub/Sub events *)

(** The CloudEvent a Pub/Sub trigger delivers: its [id] attribute and, in
    its [data], the [message] with the base64 text of the payload.  Either
    level may be absent. *)
Record PubsubMessage := { pm_data : option string }.

Record CloudEvent := {
  ce_id      : option string;
  ce_message : option PubsubMessage;
}.

(** [cloud_event.data.get("message", {}).get("data", "")]. *)
Definition event_raw (cloud_event : CloudEvent) : string :=
  match ce_message cloud_event with
  | Some m => default "" (pm_data m)
  | None => ""
  end.

(** [payload.get(k, default)]: only a [dict] has a [get] method. *)
Definition payload_get (payload : json) (k : string) (default : json) : Run json :=
  match payload with
  | JObj d => ret (assoc_get d k default)
  | _ => raise AttributeError
  end.

(** ** process-image/main.py *)

Module ProcessImage.
Section Handler.
Context {L : PyLib} (cfg : Config) (env : Env L).

(** Decode base64-encoded JSON data from a Pub/Sub CloudEvent. *)
Definition _decode_pubsub_message (cloud_event : CloudEvent) : exn + json :=
  let raw := event_raw cloud_event in
  if String.eqb raw "" then inl ValueError
  else
    match b64decode L raw with
    | inl exc => inl exc
    | inr decoded =>
        match bytes_decode L decoded with
        | inl exc => inl exc
        | inr text => json_loads L text
        end
    end.

(** [client.bucket(name)] for the name of a bucket of the store.  A value
    that is not a [str] makes the client raise before a request is sent.
    Every [str] is taken for the name of a bucket: the client's own check
    of a name (its first and last character are alphanumeric), which
    fails for names no bucket has, is not modelled. *)
Definition client_name (v : json) : Run string :=
  match v with
  | JStr s => ret s
  | _ => raise TypeError
  end.

(** [bucket.blob(name)]: a name that is not a [str] raises [ValueError]
    before a request is sent. *)
Definition client_blob_name (v : json) : Run string :=
  match v with
  | JStr s => ret s
  | _ => raise ValueError
  end.

(** The publisher accepts attributes that are [str] and raises
    [TypeError] on any other value before a request is sent. *)
Fixpoint publish_attrs (attrs : list (string * json)) : Run (list (string * string)) :=
  match attrs with
  | [] => ret []
  | (k, JStr s) :: rest => let* rest' := publish_attrs rest in ret ((k, s) :: rest')
  | _ :: _ => raise TypeError
  end.

(** [f"grayscale_{upload_id}.jpg"]: stable, keyed by upload_id. *)
Definition processed_name (upload_id : json) : string :=
  "grayscale_" +:+ py_str L upload_id +:+ ".jpg".

Definition result_payload (upload_id src_bucket object_name original_filename : json) : json :=
  JObj [ ("upload_id",         upload_id);
         ("status",            JStr "SUCCESS");
         ("original_bucket",   src_bucket);
         ("original_object",   object_name);
         ("original_filename", original_filename);
         ("processed_bucket",  JStr (PROCESSED_BUCKET cfg));
         ("processed_object",  JStr (processed_name upload_id));
         ("processed_at",      JStr (isoformat L (env_now env))) ].

(** Step 3: open the image, convert it to mode L and save it as JPEG at
    quality 90; the whole buffer is what step 4 uploads. *)
Definition convert_to_grayscale (image_bytes : bytes) : exn + bytes :=
  match Image_open L image_bytes with
  | inl exc => inl exc
  | inr original_image =>
      match Image_convert L original_image "L" with
      | inl exc => inl exc
      | inr grayscale => Image_save L grayscale "JPEG" 90
      end
  end.

(** Steps 2 to 5, reached with a payload that names an object.  Each
    [try] block of the source re-raises what it catches, so an exception
    simply propagates. *)
Definition process_steps (payload upload_id src_bucket object_name : json) : Run unit :=
  (* 2. Download from GCS into memory *)
  let* bucket_name := client_name src_bucket in
  let* blob_name := client_blob_name object_name in
  let* image_bytes := gcs_download env bucket_name blob_name in
  (* 3. Convert to grayscale *)
  let* output_buf := lift (convert_to_grayscale image_bytes) in
  (* 4. Upload processed image (idempotent name) *)
  let* _ := gcs_upload env (PROCESSED_BUCKET cfg) (processed_name upload_id)
              {| blob_data := output_buf; blob_content_type := "image/jpeg" |} in
  (* 5. Publish completion message *)
  let* original_filename := payload_get payload "original_filename" object_name in
  let data := str_encode L (json_dumps L
                (result_payload upload_id src_bucket object_name original_filename)) in
  let* attrs := publish_attrs [("upload_id", upload_id); ("status", JStr "SUCCESS")] in
  let* _ := publish env (RESULTS_TOPIC cfg) data attrs in
  ret tt.

(** Entry point: triggered by the image-processing-requests topic. *)
Definition process_image (cloud_event : CloudEvent) : Run unit :=
  (* 1. Decode message: a ValueError is dropped, not raised *)
  let* decoded :=
    try_except
      (let* payload := lift (_decode_pubsub_message cloud_event) in ret (Some payload))
      (fun exc => if is_ValueError exc then ret None else raise exc) in
  match decoded with
  | None => ret tt
  | Some payload =>
      let* upload_id    := payload_get payload "upload_id" (JStr "unknown") in
      let* src_bucket   := payload_get payload "bucket" (JStr (UPLOADS_BUCKET cfg)) in
      let* object_name  := payload_get payload "object_name" (JStr "") in
      let* content_type := payload_get payload "content_type" (JStr "image/jpeg") in
      if negb (truthy object_name) then ret tt
      else process_steps payload upload_id src_bucket object_name
  end.
End Handler.
End ProcessImage.

(** ** log-notification/main.py *)

Module LogNotification.
Section Handler.
Context {L : PyLib} (env : Env L).

(** Decode base64-encoded JSON from a Pub/Sub CloudEvent. *)
Definition _decode_pubsub_message (cloud_event : CloudEvent) : exn + json :=
  let raw := event_raw cloud_event in
  if String.eqb raw "" then inl ValueError
  else
    match b64decode L raw with
    | inl exc => inl exc
    | inr decoded =>
        match bytes_decode L decoded with
        | inl exc => inl exc
        | inr text => json_loads L text
        end
    end.

(** The structured log entry. *)
Definition log_entry (upload_id status original_bucket original_object
    original_filename processed_bucket processed_object processed_at : json)
    (cloud_event : CloudEvent) : json :=
  JObj [ ("severity",   JStr "INFO");
         ("message",    JStr ("Image pipeline completed for upload_id=" +:+ py_str L upload_id));
         ("event_type", JStr "IMAGE_PROCESSING_COMPLETE");
         ("upload_id",  upload_id);
         ("status",     status);
         ("original",   JObj [ ("bucket",   original_bucket);
                               ("object",   original_object);
                               ("filename", original_filename) ]);
         ("processed",  JObj [ ("bucket", processed_bucket);
                               ("object", processed_object) ]);
         ("pipeline_completed_at", JStr (isoformat L (env_now env)));
         ("processed_at",          processed_at);
         ("cloud_event_id",        JStr (default "" (ce_id cloud_event))) ].

(** Entry point: triggered by the image-processing-results topic. *)
Definition log_notification (cloud_event : CloudEvent) : Run unit :=
  let* decoded :=
    try_except
      (let* payload := lift (_decode_pubsub_message cloud_event) in ret (Some payload))
      (fun exc => if is_ValueError exc then ret None else raise exc) in
  match decoded with
  | None => ret tt
  | Some payload =>
      let* upload_id := payload_get payload "upload_id" (JStr "unknown") in
      let* status    := payload_get payload "status" (JStr "UNKNOWN") in
      (* Build structured log entry *)
      let* original_bucket   := payload_get payload "original_bucket" (JStr "") in
      let* original_object   := payload_get payload "original_object" (JStr "") in
      let* original_filename := payload_get payload "original_filename" (JStr "") in
      let* processed_bucket  := payload_get payload "processed_bucket" (JStr "") in
      let* processed_object  := payload_get payload "processed_object" (JStr "") in
      let* processed_at      := payload_get payload "processed_at" (JStr "") in
      (* Print as JSON *)
      print (json_dumps L (log_entry upload_id status original_bucket original_object
                             original_filename processed_bucket processed_object
                             processed_at cloud_event))
  end.
End Handler.
End LogNotification.

(** ** Vocabulary of the properties *)

Import UploadImage.
Import ProcessImage.

Section UploadImageTerms.
Context {L : PyLib} (cfg : Config) (env : Env L).

(** The extension the handler tests and appends to the object name. *)
Definition checked_ext (file : FileStorage) : string :=
  lower (snd (splitext (filename file))).

(** The object name built for an accepted upload. *)
Definition raw_object_name (file : FileStorage) : string :=
  strftime L (env_now env) "%Y%m%d_%H%M%S" +:+ "_" +:+ env_uuid4 env +:+ checked_ext file.

(** The raw object sent to the store. *)
Definition raw_blob (file : FileStorage) : Blob :=
  {| blob_data := stream file;
     blob_content_type := or_default (content_type file) "image/jpeg" |}.

(** The bytes of the Processing Request message. *)
Definition request_data (file : FileStorage) : bytes :=
  str_encode L (json_dumps L
    (message_data cfg (env_uuid4 env) (raw_object_name file)
       (strftime L (env_now env) "%Y%m%d_%H%M%S") file)).

(** A request that passes every check of the handler. *)
Definition passes_validation (request : Request) (file : FileStorage) : Prop :=
  method request = "POST" /\
  files_get (files request) "image" = Some file /\
  filename file <> "" /\
  checked_ext file ∈ ALLOWED_EXTENSIONS.
End UploadImageTerms.

Section ProcessImageTerms.
Context {L : PyLib} (cfg : Config).

(** The fields the handler reads from a payload, with their defaults. *)
Definition upload_id_of (d : list (string * json)) : json :=
  assoc_get d "upload_id" (JStr "unknown").

Definition bucket_of (d : list (string * json)) : json :=
  assoc_get d "bucket" (JStr (UPLOADS_BUCKET cfg)).

Definition object_name_of (d : list (string * json)) : json :=
  assoc_get d "object_name" (JStr "").

(** The processed artifact made from the raw bytes. *)
Definition artifact (output : bytes) : Blob :=
  {| blob_data := output; blob_content_type := "image/jpeg" |}.
End ProcessImageTerms.

(** ** A sample library and sample inputs

    Concrete values on which the handlers can be run.  The sample library
    returns what the real functions return on the sample messages below
    (ASCII text, strings that need no escaping); its decoders report an
    error on any other input.  Pillow is represented by a stand-in that
    accepts every non-empty byte string and re-encodes it unchanged, and an
    instant by its two renderings. *)

Module Sample.

Definition quoted (s : string) : string :=
  String "034"%char s +:+ String "034"%char "".

(** [json.dumps] on values whose strings need no escaping. *)
Fixpoint dumps (v : json) : string :=
  match v with
  | JNull => "null"
  | JBool true => "true"
  | JBool false => "false"
  | JInt n => pretty n
  | JFloat _ => "NaN"
  | JStr s => quoted s
  | JArr l =>
      "[" +:+ (fix items (l : list json) : string :=
                 match l with
                 | [] => ""
                 | x :: l' =>
                     dumps x +:+ match l' with [] => "" | _ => ", " +:+ items l' end
                 end) l +:+ "]"
  | JObj d =>
      "{" +:+ (fix entries (d : list (string * json)) : string :=
                 match d with
                 | [] => ""
                 | (k, x) :: d' =>
                     quoted k +:+ ": " +:+ dumps x
                     +:+ match d' with [] => "" | _ => ", " +:+ entries d' end
                 end) d +:+ "}"
  end.

(** [str()] of [None], booleans and integers. *)
Definition repr (v : json) : string :=
  match v with
  | JNull => "None"
  | JBool true => "True"
  | JBool false => "False"
  | _ => dumps v
  end.

Definition request_payload : json :=
  JObj [ ("upload_id", JStr "abc-123"); ("bucket", JStr "raw-bucket");
         ("object_name", JStr "photo.png") ].

Definition request_without_id : json := JObj [ ("object_name", JStr "photo.png") ].

Definition result_payload : json :=
  JObj [ ("upload_id", JStr "abc-123"); ("status", JStr "SUCCESS") ].

(** The base64 text of the sample messages, with the value each holds. *)
Definition messages : list (string * json) :=
  [ ("eyJ1cGxvYWRfaWQiOiAiYWJjLTEyMyIsICJidWNrZXQiOiAicmF3LWJ1Y2tldCIsICJvYmplY3RfbmFtZSI6ICJwaG90by5wbmcifQ==",
     request_payload);
    ("eyJvYmplY3RfbmFtZSI6ICJwaG90by5wbmcifQ==", request_without_id);
    ("eyJ1cGxvYWRfaWQiOiAiYWJjLTEyMyIsICJzdGF0dXMiOiAiU1VDQ0VTUyJ9", result_payload);
    ("W10=", JArr []) ].

Fixpoint find_message (raw : string) (table : list (string * json)) : option json :=
  match table with
  | [] => None
  | (k, v) :: table' => if String.eqb k raw then Some v else find_message raw table'
  end.

Fixpoint find_text (text : string) (table : list (string * json)) : option json :=
  match table with
  | [] => None
  | (_, v) :: table' => if String.eqb (dumps v) text then Some v else find_text text table'
  end.

Definition lib : PyLib :=
  {| image := bytes;
     datetime := string * string;    (* the two renderings of an instant *)
     b64decode := fun raw =>
       match find_message raw messages with
       | Some v => inr (list_byte_of_string (dumps v))
       | None => inl BinasciiError
       end;
     bytes_decode := fun b => inr (string_of_list_byte b);
     str_encode := list_byte_of_string;
     json_loads := fun text =>
       match find_text text messages with
       | Some v => inr v
       | None => inl JSONDecodeError
       end;
     json_dumps := dumps;
     py_repr := repr;
     Image_open := fun b =>
       match b with
       | [] => inl (OtherError "UnidentifiedImageError")
       | _ => inr b
       end;
     Image_convert := fun im _ => inr im;
     Image_save := fun im _ _ => inr im;
     strftime := fun dt _ => fst dt;
     isoformat := snd |}.

Definition cfg : Config :=
  {| UPLOADS_BUCKET := "raw-bucket"; PROCESSED_BUCKET := "processed-bucket";
     PUBSUB_TOPIC := "image-processing-requests";
     RESULTS_TOPIC := "image-processing-results" |}.

Definition instant : datetime lib := ("20240101_120000", "2024-01-01T12:00:00+00:00").

Definition later : datetime lib := ("20240101_120005", "2024-01-01T12:00:05+00:00").

(** Every remote call succeeds. *)
Definition env : Env lib :=
  {| env_uuid4 := "0f8fad5b-d9cb-469f-a165-70867728950e"; env_now := instant;
     gcs_read_ok := true; gcs_write_ok := true; pubsub_ok := true;
     pubsub_queued_on_failure := false; pubsub_message_id := "1" |}.

(** The same a few seconds later. *)
Definition env_later : Env lib :=
  {| env_uuid4 := "7c9e6679-7425-40de-944b-e07fc1f90ae7"; env_now := later;
     gcs_read_ok := true; gcs_write_ok := true; pubsub_ok := true;
     pubsub_queued_on_failure := false; pubsub_message_id := "2" |}.

(** The store rejects writes. *)
Definition env_store_down : Env lib :=
  {| env_uuid4 := "0f8fad5b-d9cb-469f-a165-70867728950e"; env_now := instant;
     gcs_read_ok := true; gcs_write_ok := false; pubsub_ok := true;
     pubsub_queued_on_failure := false; pubsub_message_id := "1" |}.

Definition image_bytes : bytes := [Byte.xff; Byte.xd8; Byte.xff; Byte.xe0].

Definition empty_world : World :=
  {| gcs := ∅; pubsub := []; stdout := []; calls := [] |}.

(** A store that holds the raw object the sample request names. *)
Definition world : World :=
  {| gcs := {[ ("raw-bucket", "photo.png") :=
                 {| blob_data := image_bytes; blob_content_type := "image/png" |} ]};
     pubsub := []; stdout := []; calls := [] |}.

Definition photo : UploadImage.FileStorage :=
  {| UploadImage.filename := "PHOTO.JPG"; UploadImage.content_type := None;
     UploadImage.stream := image_bytes; UploadImage.stream_pos := 0 |}.

Definition notes : UploadImage.FileStorage :=
  {| UploadImage.filename := "notes.txt"; UploadImage.content_type := Some "text/plain";
     UploadImage.stream := image_bytes; UploadImage.stream_pos := 0 |}.

Definition post (file : UploadImage.FileStorage) : UploadImage.Request :=
  {| UploadImage.method := "POST"; UploadImage.files := [("image", file)] |}.

Definition options_request : UploadImage.Request :=
  {| UploadImage.method := "OPTIONS"; UploadImage.files := [] |}.

Definition get_request : UploadImage.Request :=
  {| UploadImage.method := "GET"; UploadImage.files := [] |}.

Definition event (raw : string) : CloudEvent :=
  {| ce_id := Some "evt-1"; ce_message := Some {| pm_data := Some raw |} |}.

Definition request_event : CloudEvent :=
  event "eyJ1cGxvYWRfaWQiOiAiYWJjLTEyMyIsICJidWNrZXQiOiAicmF3LWJ1Y2tldCIsICJvYmplY3RfbmFtZSI6ICJwaG90by5wbmcifQ==".

Definition request_without_id_event : CloudEvent :=
  event "eyJvYmplY3RfbmFtZSI6ICJwaG90by5wbmcifQ==".

Definition result_event : CloudEvent :=
  event "eyJ1cGxvYWRfaWQiOiAiYWJjLTEyMyIsICJzdGF0dXMiOiAiU1VDQ0VTUyJ9".

Definition list_event : CloudEvent := event "W10=".

End Sample.

(** ** Messages on their way between handlers *)

Section PipelineTerms.
Context (L : PyLib).

(** Pub/Sub hands a published message to its subscriber as an event whose
    [data] is the base64 text of the message's bytes. *)
Definition delivers (cloud_event : CloudEvent) (message : Message) : Prop :=
  event_raw cloud_event <> "" /\
  b64decode L (event_raw cloud_event) = inr (msg_data message).

(** Writing [v] as JSON text, encoding it, decoding it and reading it
    gives [v] back. *)
Definition round_trips (v : json) : Prop :=
  exists text,
    bytes_decode L (str_encode L (json_dumps L v)) = inr text /\
    json_loads L text = inr v.
End PipelineTerms.

(** ** One upload on its way through the pipeline

    A second sample library, which knows the two messages of the upload of
    [Sample.photo]: the request Ingress publishes for it and the result
    Processing publishes for that request. *)

Module Relay.

Definition request_payload : json :=
  JObj [ ("upload_id", JStr "0f8fad5b-d9cb-469f-a165-70867728950e");
         ("bucket", JStr "raw-bucket");
         ("object_name", JStr "20240101_120000_0f8fad5b-d9cb-469f-a165-70867728950e.jpg");
         ("original_filename", JStr "PHOTO.JPG");
         ("content_type", JStr "image/jpeg");
         ("timestamp", JStr "20240101_120000") ].

Definition result_payload : json :=
  JObj [ ("upload_id", JStr "0f8fad5b-d9cb-469f-a165-70867728950e");
         ("status", JStr "SUCCESS");
         ("original_bucket", JStr "raw-bucket");
         ("original_object", JStr "20240101_120000_0f8fad5b-d9cb-469f-a165-70867728950e.jpg");
         ("original_filename", JStr "PHOTO.JPG");
         ("processed_bucket", JStr "processed-bucket");
         ("processed_object", JStr "grayscale_0f8fad5b-d9cb-469f-a165-70867728950e.jpg");
         ("processed_at", JStr "2024-01-01T12:00:05+00:00") ].

Definition request_base64 : string :=
  "eyJ1cGxvYWRfaWQiOiAiMGY4ZmFkNWItZDljYi00NjlmLWExNjUtNzA4Njc3Mjg5NTBlIiwgImJ1Y2tldCI6ICJyYXctYnVja2V0IiwgIm9iamVjdF9uYW1lIjogIjIwMjQwMTAxXzEyMDAwMF8wZjhmYWQ1Yi1kOWNiLTQ2OWYtYTE2NS03MDg2NzcyODk1MGUuanBnIiwgIm9yaWdpbmFsX2ZpbGVuYW1lIjogIlBIT1RPLkpQRyIsICJjb250ZW50X3R5cGUiOiAiaW1hZ2UvanBlZyIsICJ0aW1lc3RhbXAiOiAiMjAyNDAxMDFfMTIwMDAwIn0=".

Definition result_base64 : string :=
  "eyJ1cGxvYWRfaWQiOiAiMGY4ZmFkNWItZDljYi00NjlmLWExNjUtNzA4Njc3Mjg5NTBlIiwgInN0YXR1cyI6ICJTVUNDRVNTIiwgIm9yaWdpbmFsX2J1Y2tldCI6ICJyYXctYnVja2V0IiwgIm9yaWdpbmFsX29iamVjdCI6ICIyMDI0MDEwMV8xMjAwMDBfMGY4ZmFkNWItZDljYi00NjlmLWExNjUtNzA4Njc3Mjg5NTBlLmpwZyIsICJvcmlnaW5hbF9maWxlbmFtZSI6ICJQSE9UTy5KUEciLCAicHJvY2Vzc2VkX2J1Y2tldCI6ICJwcm9jZXNzZWQtYnVja2V0IiwgInByb2Nlc3NlZF9vYmplY3QiOiAiZ3JheXNjYWxlXzBmOGZhZDViLWQ5Y2ItNDY5Zi1hMTY1LTcwODY3NzI4OTUwZS5qcGciLCAicHJvY2Vzc2VkX2F0IjogIjIwMjQtMDEtMDFUMTI6MDA6MDUrMDA6MDAifQ==".

Definition messages : list (string * json) :=
  [ (request_base64, request_payload); (result_base64, result_payload) ].

Definition lib : PyLib :=
  {| image := bytes;
     datetime := string * string;
     b64decode := fun raw =>
       match Sample.find_message raw messages with
       | Some v => inr (list_byte_of_string (Sample.dumps v))
       | None => inl BinasciiError
       end;
     bytes_decode := fun b => inr (string_of_list_byte b);
     str_encode := list_byte_of_string;
     json_loads := fun text =>
       match Sample.find_text text messages with
       | Some v => inr v
       | None => inl JSONDecodeError
       end;
     json_dumps := Sample.dumps;
     py_repr := Sample.repr;
     Image_open := fun b =>
       match b with
       | [] => inl (OtherError "UnidentifiedImageError")
       | _ => inr b
       end;
     Image_convert := fun im _ => inr im;
     Image_save := fun im _ _ => inr im;
     strftime := fun dt _ => fst dt;
     isoformat := snd |}.

Definition instant : datetime lib := ("20240101_120000", "2024-01-01T12:00:00+00:00").

Definition later : datetime lib := ("20240101_120005", "2024-01-01T12:00:05+00:00").

(** Every remote call succeeds. *)
Definition env : Env lib :=
  {| env_uuid4 := "0f8fad5b-d9cb-469f-a165-70867728950e"; env_now := instant;
     gcs_read_ok := true; gcs_write_ok := true; pubsub_ok := true;
     pubsub_queued_on_failure := false; pubsub_message_id := "1" |}.

(** The same a few seconds later. *)
Definition env_later : Env lib :=
  {| env_uuid4 := "7c9e6679-7425-40de-944b-e07fc1f90ae7"; env_now := later;
     gcs_read_ok := true; gcs_write_ok := true; pubsub_ok := true;
     pubsub_queued_on_failure := false; pubsub_message_id := "2" |}.

(** The store answers, the queue does not. *)
Definition env_queue_down : Env lib :=
  {| env_uuid4 := "0f8fad5b-d9cb-469f-a165-70867728950e"; env_now := instant;
     gcs_read_ok := true; gcs_write_ok := true; pubsub_ok := false;
     pubsub_queued_on_failure := false; pubsub_message_id := "1" |}.

(** The queue takes the message, but its confirmation does not arrive
    within the ten seconds the caller waits for it. *)
Definition env_queue_timeout : Env lib :=
  {| env_uuid4 := "0f8fad5b-d9cb-469f-a165-70867728950e"; env_now := instant;
     gcs_read_ok := true; gcs_write_ok := true; pubsub_ok := false;
     pubsub_queued_on_failure := true; pubsub_message_id := "1" |}.

Definition request_event : CloudEvent := Sample.event request_base64.

Definition result_event : CloudEvent := Sample.event result_base64.

(** A PNG upload without bytes. *)
Definition empty_png : FileStorage :=
  {| filename := "empty.png"; content_type := Some "image/png";
     stream := []; stream_pos := 0 |}.

Definition no_extension : FileStorage :=
  {| filename := "README"; content_type := None;
     stream := Sample.image_bytes; stream_pos := 0 |}.

(** PHOTO.JPG under a lowercase name, read halfway through. *)
Definition photo_lowercase : FileStorage :=
  {| filename := "photo.jpg"; content_type := None;
     stream := Sample.image_bytes; stream_pos := 2 |}.

(** A store in which the raw object of [Sample.request_event] has no
    bytes. *)
Definition world_with_empty_object : World :=
  {| gcs := {[ ("raw-bucket", "photo.png") :=
                 {| blob_data := []; blob_content_type := "image/png" |} ]};
     pubsub := []; stdout := []; calls := [] |}.

(** The store after the upload of [Sample.photo]. *)
Definition world_after_upload : World :=
  {| gcs := {[ ("raw-bucket", "20240101_120000_0f8fad5b-d9cb-469f-a165-70867728950e.jpg") :=
                 {| blob_data := Sample.image_bytes; blob_content_type := "image/jpeg" |} ]};
     pubsub := []; stdout := []; calls := [] |}.

Definition no_message_event : CloudEvent := {| ce_id := Some "evt-2"; ce_message := None |}.

End Relay.

(** * Properties *)

(** Unfolding the plumbing of [Run] computations. *)
Ltac run_unfold :=
  cbv [bind ret raise try_except lift record_call print
       gcs_upload gcs_download publish payload_get] in *.

(** Case analysis on membership in an explicit list. *)
Ltac elem_inv :=
  repeat match goal with
    | H : _ ∈ [] |- _ => by apply elem_of_nil in H
    | H : _ ∈ _ :: _ |- _ => apply elem_of_cons in H as [H|H]; simplify_eq/=
    end.

(** Reading the calls a run has added off an equation between traces. *)
Ltac trace_inv :=
  repeat match goal with
    | H : ?l = ?l ++ _ |- _ =>
        rewrite <- (app_nil_r l) in H at 1; apply app_inv_head in H
    | H : (_ ++ _) ++ _ = _ |- _ => rewrite <- app_assoc in H
    | H : ?l ++ _ = ?l ++ _ |- _ => apply app_inv_head in H
    end;
  simplify_eq/=.

(** ** Ingress: the paths of [upload_image] *)

Section UploadImagePaths.
Context {L : PyLib} (cfg : Config) (env : Env L).

Lemma upload_image_options request w :
  method request = "OPTIONS" ->
  exists response,
    upload_image cfg env request w = (Ok response, w) /\ status response = 204.
Proof.
  intros Hm. unfold upload_image. rewrite Hm. simpl. eauto.
Qed.

Lemma upload_image_other_method request w :
  method request <> "OPTIONS" -> method request <> "POST" ->
  exists response,
    upload_image cfg env request w = (Ok response, w) /\ status response = 405.
Proof.
  intros Ho Hp. unfold upload_image.
  apply String.eqb_neq in Ho, Hp. rewrite Ho, Hp. simpl. eauto.
Qed.

Lemma upload_image_invalid request w :
  method request = "POST" ->
  (forall file, ~ passes_validation request file) ->
  exists response,
    upload_image cfg env request w = (Ok response, w) /\ status response = 400.
Proof.
  intros Hm Hbad. unfold upload_image. rewrite Hm. simpl.
  destruct (files_get (files request) "image") as [file|] eqn:Hf; [|eauto].
  unfold file_bool.
  destruct (String.eqb (filename file) "") eqn:Hn; simpl; [eauto|].
  destruct (bool_decide (lower (snd (splitext (filename file))) ∈ ALLOWED_EXTENSIONS)) eqn:He;
    simpl; [|eauto].
  exfalso. apply (Hbad file). repeat split; auto.
  - by apply String.eqb_neq.
  - by apply bool_decide_eq_true in He.
Qed.

Lemma upload_image_accepted request w file :
  passes_validation request file ->
  upload_image cfg env request w =
    if gcs_write_ok env then
      let stored := <[(UPLOADS_BUCKET cfg, raw_object_name env file) := raw_blob file]> (gcs w) in
      let up := CallUpload (UPLOADS_BUCKET cfg) (raw_object_name env file) (raw_blob file) true in
      if pubsub_ok env then
        (Ok (jsonify [ ("upload_id",   JStr (env_uuid4 env));
                       ("object_name", JStr (raw_object_name env file));
                       ("message",     JStr "Image accepted and queued for processing.");
                       ("status",      JStr "PROCESSING") ] 202),
         {| gcs := stored;
            pubsub := pubsub w ++ [{| msg_topic := PUBSUB_TOPIC cfg;
                                      msg_data := request_data cfg env file;
                                      msg_attrs := [("upload_id", env_uuid4 env)] |}];
            stdout := stdout w;
            calls := (calls w ++ [up]) ++
                     [CallPublish (PUBSUB_TOPIC cfg) (request_data cfg env file)
                        [("upload_id", env_uuid4 env)] true] |})
      else
        (Ok (jsonify [("error", JStr "Image stored but failed to queue for processing.")] 500),
         {| gcs := stored;
            pubsub := if pubsub_queued_on_failure env
                      then pubsub w ++ [{| msg_topic := PUBSUB_TOPIC cfg;
                                           msg_data := request_data cfg env file;
                                           msg_attrs := [("upload_id", env_uuid4 env)] |}]
                      else pubsub w;
            stdout := stdout w;
            calls := (calls w ++ [up]) ++
                     [CallPublish (PUBSUB_TOPIC cfg) (request_data cfg env file)
                        [("upload_id", env_uuid4 env)] false] |})
    else
      (Ok (jsonify [("error", JStr "Failed to store image. Please retry.")] 500),
       {| gcs := gcs w; pubsub := pubsub w; stdout := stdout w;
          calls := calls w ++ [CallUpload (UPLOADS_BUCKET cfg) (raw_object_name env file)
                                 (raw_blob file) false] |}).
Proof.
  intros (Hm & Hf & Hn & He). unfold upload_image.
  rewrite Hm, Hf. simpl. unfold file_bool.
  apply String.eqb_neq in Hn. rewrite Hn. simpl.
  fold (checked_ext file). rewrite bool_decide_eq_true_2 by exact He. simpl.
  run_unfold. unfold read_stream, seek. simpl. rewrite drop_0.
  fold (raw_blob file). fold (raw_object_name env file).
  destruct (gcs_write_ok env); [|reflexivity].
  destruct (pubsub_ok env); reflexivity.
Qed.
End UploadImagePaths.

Section UploadImageClaims.
Context {L : PyLib} (cfg : Config) (env : Env L).

(** A request either passes validation or is answered at once, with the
    world as it was. *)
Lemma upload_image_cases request w :
  (exists file, passes_validation request file) \/
  (exists response,
     upload_image cfg env request w = (Ok response, w) /\
     (status response = 204 \/ status response = 405 \/ status response = 400)).
Proof.
  destruct (decide (method request = "OPTIONS")) as [Ho|Ho].
  { right. destruct (upload_image_options cfg env request w Ho) as (r & ? & ?). eauto. }
  destruct (decide (method request = "POST")) as [Hp|Hp].
  2:{ right. destruct (upload_image_other_method cfg env request w Ho Hp) as (r & ? & ?).
      eauto 6. }
  destruct (files_get (files request) "image") as [file|] eqn:Hf.
  - destruct (decide (filename file = "")) as [Hn|Hn].
    + right. destruct (upload_image_invalid cfg env request w Hp) as (r & ? & ?); [|eauto 6].
      intros file' (_ & Hf' & Hn' & _). congruence.
    + destruct (decide (checked_ext file ∈ ALLOWED_EXTENSIONS)) as [He|He].
      * left. exists file. repeat split; auto.
      * right. destruct (upload_image_invalid cfg env request w Hp) as (r & ? & ?); [|eauto 6].
        intros file' (_ & Hf' & _ & He'). congruence.
  - right. destruct (upload_image_invalid cfg env request w Hp) as (r & ? & ?); [|eauto 6].
    intros file' (_ & Hf' & _). congruence.
Qed.

(** The handler answers every request whose form has been parsed: no
    failure of the store or of the queue leaves it, and the calls it makes
    are appended to those made before. *)
Lemma upload_image_returns request w :
  exists response w' (tr : list Call),
    upload_image cfg env request w = (Ok response, w') /\ calls w' = calls w ++ tr.
Proof.
  destruct (upload_image_cases request w) as [[file Hv]|(r & Hr & _)].
  - rewrite (upload_image_accepted cfg env request w file Hv).
    destruct (gcs_write_ok env); [destruct (pubsub_ok env)|];
      do 3 eexists; (split; [reflexivity|]); simpl; rewrite <- ?app_assoc; reflexivity.
  - exists r, w, []. split; [done|]. by rewrite app_nil_r.
Qed.

(** C6, as amended.  A request whose method is not POST is answered
    without any store write or publish (the world is returned as it was):
    with 204 when the method is OPTIONS, the CORS preflight, and with 405
    for every other method. *)
Theorem non_post_request_rejected request w :
  method request <> "POST" ->
  exists response,
    upload_image cfg env request w = (Ok response, w) /\
    status response = (if String.eqb (method request) "OPTIONS" then 204 else 405).
Proof.
  intros Hp. destruct (String.eqb (method request) "OPTIONS") eqn:Ho.
  - apply String.eqb_eq in Ho. by apply upload_image_options.
  - apply String.eqb_neq in Ho. by apply upload_image_other_method.
Qed.

(** C5.  The handler does not reject an empty file.  Its test [not file]
    is decided by the filename alone and nothing looks at the content, so a
    POST request whose [image] file has an allow-listed name and no bytes
    passes every check: when the store and the queue answer it is answered
    with 202, an object without bytes is written to the raw store and a
    processing request is published for it. *)
Theorem empty_file_is_accepted request w file :
  passes_validation request file ->
  stream file = [] ->
  gcs_write_ok env = true -> pubsub_ok env = true ->
  file_bool file = true /\
  exists response w',
    upload_image cfg env request w = (Ok response, w') /\
    status response = 202 /\
    (exists content_type,
       gcs w' !! (UPLOADS_BUCKET cfg, raw_object_name env file)
         = Some {| blob_data := []; blob_content_type := content_type |}) /\
    calls w' = calls w ++
      [CallUpload (UPLOADS_BUCKET cfg) (raw_object_name env file) (raw_blob file) true;
       CallPublish (PUBSUB_TOPIC cfg) (request_data cfg env file)
         [("upload_id", env_uuid4 env)] true] /\
    pubsub w' = pubsub w ++ [{| msg_topic := PUBSUB_TOPIC cfg;
                                msg_data := request_data cfg env file;
                                msg_attrs := [("upload_id", env_uuid4 env)] |}].
Proof.
  intros Hv He Hw Hp. split.
  { destruct Hv as (_ & _ & Hn & _). unfold file_bool.
    apply String.eqb_neq in Hn. by rewrite Hn. }
  rewrite (upload_image_accepted cfg env request w file Hv), Hw, Hp.
  do 2 eexists. split; [reflexivity|]. simpl. split; [reflexivity|].
  split; [|split; [|reflexivity]].
  - exists (or_default (content_type file) "image/jpeg").
    rewrite lookup_insert_eq. unfold raw_blob. by rewrite He.
  - by rewrite <- app_assoc.
Qed.

(** The requests the checks do reject.  A POST request whose [image] field
    is missing, whose filename is empty, or whose lowercased extension is
    outside the allow-list is answered with 400, and the world is returned
    as it was: nothing is written to the raw store and nothing is
    published, nor is either attempted.  The test [not file] adds no case
    of its own: it holds exactly when the filename is empty. *)
Theorem invalid_upload_rejected request w :
  method request = "POST" ->
  (files_get (files request) "image" = None \/
   exists file, files_get (files request) "image" = Some file /\
     (filename file = "" \/
      lower (snd (splitext (filename file))) ∉ ALLOWED_EXTENSIONS)) ->
  (forall file, file_bool file = false <-> filename file = "") /\
  exists response,
    upload_image cfg env request w = (Ok response, w) /\ status response = 400.
Proof.
  intros Hp Hbad. split.
  { intros file. unfold file_bool.
    rewrite negb_false_iff. apply String.eqb_eq. }
  apply upload_image_invalid; [done|].
  intros file (_ & Hf & Hn & He).
  destruct Hbad as [Hnone|(file' & Hf' & Hcase)]; [congruence|].
  assert (file' = file) as -> by congruence.
  by destruct Hcase as [Hn'|He'].
Qed.

(** C4.  In every run of the handler: if a write to the raw store was
    attempted and failed, the response is 500 and no publish is attempted
    (the queue is as it was); and whenever a publish is attempted, a
    successful write to the raw store precedes it and no write failed. *)
Theorem store_failure_returns_500_without_publish request w response w'
    (tr : list Call) :
  upload_image cfg env request w = (Ok response, w') ->
  calls w' = calls w ++ tr ->
  ((exists bucket name blob, CallUpload bucket name blob false ∈ tr) ->
     status response = 500 /\
     (forall c, c ∈ tr -> is_publish c = false) /\
     pubsub w' = pubsub w) /\
  (forall pre c post, tr = pre ++ c :: post -> is_publish c = true ->
     (exists bucket name blob, CallUpload bucket name blob true ∈ pre) /\
     (forall bucket name blob ok, CallUpload bucket name blob ok ∈ tr -> ok = true)).
Proof.
  intros Hrun Htr.
  destruct (upload_image_cases request w) as [[file Hv]|(r & Hr & _)].
  - rewrite (upload_image_accepted cfg env request w file Hv) in Hrun.
    destruct (gcs_write_ok env); [destruct (pubsub_ok env)|];
      simpl in Hrun; injection Hrun as <- <-; simpl in Htr;
      rewrite <- ?app_assoc in Htr; apply app_inv_head in Htr; subst tr; simpl.
    + split.
      * intros (b & n & bl & Hin). elem_inv.
      * intros pre c post Heq Hpub.
        destruct pre as [|x [|y pre]]; simplify_eq/=; [|destruct pre; simplify_eq/=].
        split; [do 3 eexists; apply list_elem_of_singleton; reflexivity|].
        intros b n bl ok Hin. by elem_inv.
    + split.
      * intros (b & n & bl & Hin). elem_inv.
      * intros pre c post Heq Hpub.
        destruct pre as [|x [|y pre]]; simplify_eq/=; [|destruct pre; simplify_eq/=].
        split; [do 3 eexists; apply list_elem_of_singleton; reflexivity|].
        intros b n bl ok Hin. by elem_inv.
    + split.
      * intros _. repeat split; try done. intros c Hin. by elem_inv.
      * intros pre c post Heq Hpub.
        destruct pre as [|x pre]; simplify_eq/=. destruct pre; simplify_eq/=.
  - rewrite Hr in Hrun. injection Hrun as <- <-.
    rewrite <- (app_nil_r (calls w)) in Htr at 1. apply app_inv_head in Htr. subst tr.
    split.
    + intros (b & n & bl & Hin). elem_inv.
    + intros pre c post Heq. by destruct pre.
Qed.

(** C9.  The extension is tested after lowercasing: a POST request whose
    file has a name and a lowercased extension in the allow-list is not
    rejected; the raw-store write is attempted under an object name that
    ends in the lowercased extension, and when store and queue answer the
    response is 202 and carries that object name. *)
Theorem extension_check_is_case_insensitive request w file :
  method request = "POST" ->
  files_get (files request) "image" = Some file ->
  filename file <> "" ->
  lower (snd (splitext (filename file))) ∈ ALLOWED_EXTENSIONS ->
  let object_name :=
    strftime L (env_now env) "%Y%m%d_%H%M%S" +:+ "_" +:+ env_uuid4 env
      +:+ lower (snd (splitext (filename file))) in
  exists response w' blob ok rest,
    upload_image cfg env request w = (Ok response, w') /\
    status response <> 400 /\ status response <> 405 /\
    calls w' = calls w ++ CallUpload (UPLOADS_BUCKET cfg) object_name blob ok :: rest /\
    (gcs_write_ok env = true -> pubsub_ok env = true ->
     status response = 202 /\
     exists entries, body response = BodyJson (JObj entries) /\
       assoc_get entries "object_name" JNull = JStr object_name).
Proof.
  intros Hm Hf Hn He object_name.
  rewrite (upload_image_accepted cfg env request w file) by done.
  destruct (gcs_write_ok env); [destruct (pubsub_ok env)|];
    do 5 eexists; (split; [reflexivity|]); simpl; rewrite <- ?app_assoc; simpl;
    (split; [done|]); (split; [done|]); (split; [reflexivity|]);
    intros; try done.
  split; [done|]. eexists. split; reflexivity.
Qed.

(** C10.  When an upload without a declared content type (absent or
    empty) is accepted with 202, the raw object is stored with content
    type image/jpeg and the Processing Request published for it carries
    the same value in its [content_type] field. *)
Theorem default_content_type_is_consistent request w response w' file :
  upload_image cfg env request w = (Ok response, w') ->
  status response = 202 ->
  files_get (files request) "image" = Some file ->
  (content_type file = None \/ content_type file = Some "") ->
  exists name blob message entries,
    gcs w' !! (UPLOADS_BUCKET cfg, name) = Some blob /\
    pubsub w' = pubsub w ++ [message] /\
    msg_topic message = PUBSUB_TOPIC cfg /\
    msg_data message = str_encode L (json_dumps L (JObj entries)) /\
    assoc_get entries "object_name" JNull = JStr name /\
    blob_content_type blob = "image/jpeg" /\
    assoc_get entries "content_type" JNull = JStr (blob_content_type blob).
Proof.
  intros Hrun Hst Hf Hct.
  destruct (upload_image_cases request w) as [[file' Hv]|(r & Hr & Hs)].
  - assert (file' = file) as -> by (destruct Hv as (_ & Hf' & _); congruence).
    rewrite (upload_image_accepted cfg env request w file Hv) in Hrun.
    destruct (gcs_write_ok env); [destruct (pubsub_ok env)|];
      simpl in Hrun; injection Hrun as <- <-; simpl in Hst; try done.
    exists (raw_object_name env file), (raw_blob file). do 2 eexists. simpl.
    split; [apply lookup_insert_eq|]. split; [reflexivity|]. split; [reflexivity|].
    split; [reflexivity|]. split; [reflexivity|].
    unfold raw_blob. simpl. by destruct Hct as [-> | ->].
  - rewrite Hr in Hrun. injection Hrun as <- <-. lia.
Qed.
End UploadImageClaims.

(** ** Ingress on the sample requests *)

(** A GET request is answered with 405. *)
Lemma non_post_request_rejected_witness :
  method Sample.get_request <> "POST" /\
  exists response,
    upload_image Sample.cfg Sample.env Sample.get_request Sample.empty_world
      = (Ok response, Sample.empty_world) /\
    status response = 405.
Proof.
  assert (method Sample.get_request <> "POST") as Hm by (simpl; discriminate).
  split; [exact Hm|].
  exact (non_post_request_rejected Sample.cfg Sample.env Sample.get_request
           Sample.empty_world Hm).
Defined.

(** C6 as stated fails: an OPTIONS request is not a POST request, and it is
    answered with 204, not 405. *)
Lemma options_request_is_answered_204 :
  method Sample.options_request <> "POST" /\
  exists response,
    upload_image Sample.cfg Sample.env Sample.options_request Sample.empty_world
      = (Ok response, Sample.empty_world) /\
    status response = 204 /\ status response <> 405.
Proof.
  split; [simpl; discriminate|].
  eexists. split; [reflexivity|]. simpl. split; [reflexivity|discriminate].
Qed.

(** empty.png, a file without bytes, is answered with 202 and stored as
    an object without bytes. *)
Lemma empty_file_is_accepted_witness :
  stream Relay.empty_png = [] /\
  exists response w',
    upload_image Sample.cfg Sample.env (Sample.post Relay.empty_png) Sample.empty_world
      = (Ok response, w') /\
    status response = 202 /\
    (exists content_type,
       gcs w' !! ("raw-bucket", raw_object_name Sample.env Relay.empty_png)
         = Some {| blob_data := []; blob_content_type := content_type |}).
Proof.
  assert (passes_validation (Sample.post Relay.empty_png) Relay.empty_png) as Hv.
  { split; [reflexivity|]. split; [reflexivity|]. split; [discriminate|compute_done]. }
  split; [reflexivity|].
  destruct (empty_file_is_accepted Sample.cfg Sample.env (Sample.post Relay.empty_png)
              Sample.empty_world Relay.empty_png Hv eq_refl eq_refl eq_refl)
    as (_ & response & w' & Hrun & Hst & Hstored & _).
  exists response, w'. split; [exact Hrun|]. split; [exact Hst|exact Hstored].
Defined.

(** A file named notes.txt is rejected with 400. *)
Lemma invalid_upload_rejected_witness :
  method (Sample.post Sample.notes) = "POST" /\
  (lower (snd (splitext (filename Sample.notes))) ∉ ALLOWED_EXTENSIONS) /\
  exists response,
    upload_image Sample.cfg Sample.env (Sample.post Sample.notes) Sample.empty_world
      = (Ok response, Sample.empty_world) /\
    status response = 400.
Proof.
  assert (lower (snd (splitext (filename Sample.notes))) ∉ ALLOWED_EXTENSIONS) as He
    by compute_done.
  split; [reflexivity|]. split; [exact He|].
  apply (invalid_upload_rejected Sample.cfg Sample.env (Sample.post Sample.notes)
           Sample.empty_world eq_refl).
  right. exists Sample.notes. split; [reflexivity|]. right. exact He.
Defined.

(** With the store down, PHOTO.JPG is answered with 500 after one failed
    write and no publish. *)
Lemma store_failure_witness :
  exists response w' tr,
    upload_image Sample.cfg Sample.env_store_down (Sample.post Sample.photo)
      Sample.empty_world = (Ok response, w') /\
    calls w' = calls Sample.empty_world ++ tr /\
    (exists bucket name blob, CallUpload bucket name blob false ∈ tr) /\
    status response = 500 /\
    (forall c, c ∈ tr -> is_publish c = false) /\
    pubsub w' = pubsub Sample.empty_world.
Proof.
  pose (up := CallUpload "raw-bucket"
                "20240101_120000_0f8fad5b-d9cb-469f-a165-70867728950e.jpg"
                {| blob_data := Sample.image_bytes; blob_content_type := "image/jpeg" |}
                false).
  pose (response := jsonify [("error", JStr "Failed to store image. Please retry.")] 500).
  pose (w' := {| gcs := ∅; pubsub := []; stdout := []; calls := [up] |}).
  assert (upload_image Sample.cfg Sample.env_store_down (Sample.post Sample.photo)
            Sample.empty_world = (Ok response, w')) as Hrun by (vm_compute; reflexivity).
  assert (calls w' = calls Sample.empty_world ++ [up]) as Htr by reflexivity.
  assert (exists bucket name blob, CallUpload bucket name blob false ∈ [up]) as Hfail
    by (do 3 eexists; apply list_elem_of_singleton; reflexivity).
  exists response, w', [up].
  split; [exact Hrun|]. split; [exact Htr|]. split; [exact Hfail|].
  exact (proj1 (store_failure_returns_500_without_publish Sample.cfg
                  Sample.env_store_down _ _ _ _ _ Hrun Htr) Hfail).
Defined.

(** PHOTO.JPG is accepted, and stored under a name that ends in .jpg. *)
Lemma extension_check_is_case_insensitive_witness :
  lower (snd (splitext (filename Sample.photo))) = ".jpg" /\
  exists response w' blob ok rest,
    upload_image Sample.cfg Sample.env (Sample.post Sample.photo) Sample.empty_world
      = (Ok response, w') /\
    status response <> 400 /\ status response <> 405 /\
    calls w' = calls Sample.empty_world ++
      CallUpload "raw-bucket" "20240101_120000_0f8fad5b-d9cb-469f-a165-70867728950e.jpg"
        blob ok :: rest.
Proof.
  split; [reflexivity|].
  assert (filename Sample.photo <> "") as Hn by (simpl; discriminate).
  assert (lower (snd (splitext (filename Sample.photo))) ∈ ALLOWED_EXTENSIONS) as He
    by compute_done.
  destruct (extension_check_is_case_insensitive Sample.cfg Sample.env
              (Sample.post Sample.photo) Sample.empty_world Sample.photo
              eq_refl eq_refl Hn He)
    as (response & w' & blob & ok & rest & Hrun & H400 & H405 & Hcalls & _).
  exists response, w', blob, ok, rest. repeat split; assumption.
Defined.

(** PHOTO.JPG declares no content type: the stored object and the published
    message both carry image/jpeg. *)
Lemma default_content_type_is_consistent_witness :
  exists response w',
    upload_image Sample.cfg Sample.env (Sample.post Sample.photo) Sample.empty_world
      = (Ok response, w') /\
    status response = 202 /\
    content_type Sample.photo = None /\
    exists name blob message entries,
      gcs w' !! (UPLOADS_BUCKET Sample.cfg, name) = Some blob /\
      pubsub w' = pubsub Sample.empty_world ++ [message] /\
      msg_topic message = PUBSUB_TOPIC Sample.cfg /\
      msg_data message = str_encode Sample.lib (json_dumps Sample.lib (JObj entries)) /\
      assoc_get entries "object_name" JNull = JStr name /\
      blob_content_type blob = "image/jpeg" /\
      assoc_get entries "content_type" JNull = JStr (blob_content_type blob).
Proof.
  destruct (upload_image_returns Sample.cfg Sample.env (Sample.post Sample.photo)
              Sample.empty_world) as (response & w' & tr & Hrun & _).
  assert (status response = 202) as Hst.
  { assert (fst (upload_image Sample.cfg Sample.env (Sample.post Sample.photo)
                   Sample.empty_world) = Ok response) as Hfst by (rewrite Hrun; reflexivity).
    vm_compute in Hfst. injection Hfst as <-. reflexivity. }
  exists response, w'. split; [exact Hrun|]. split; [exact Hst|]. split; [reflexivity|].
  exact (default_content_type_is_consistent Sample.cfg Sample.env _ _ _ _ Sample.photo
           Hrun Hst eq_refl (or_introl eq_refl)).
Defined.

(** ** Processing: the paths of [process_image] *)

(** Splitting a run on whatever its next step tests. *)
Ltac run_cases H :=
  repeat (simpl in H;
          match type of H with
          | context [match ?x with _ => _ end] =>
              lazymatch x with
              | context [match _ with _ => _ end] => fail
              | _ => destruct x eqn:?
              end
          end);
  simplify_eq/=.

Section ProcessImagePaths.
Context {L : PyLib} (cfg : Config) (env : Env L).

Lemma process_image_drops ev w exc :
  _decode_pubsub_message (L:=L) ev = inl exc -> is_ValueError exc = true ->
  process_image cfg env ev w = (Ok tt, w).
Proof.
  intros Hd Hv. unfold process_image. run_unfold. rewrite Hd, Hv. reflexivity.
Qed.

Lemma process_image_reraises ev w exc :
  _decode_pubsub_message (L:=L) ev = inl exc -> is_ValueError exc = false ->
  process_image cfg env ev w = (Raise exc, w).
Proof.
  intros Hd Hv. unfold process_image. run_unfold. rewrite Hd, Hv. reflexivity.
Qed.

Lemma process_image_not_dict ev w v :
  _decode_pubsub_message (L:=L) ev = inr v -> (forall d, v <> JObj d) ->
  process_image cfg env ev w = (Raise AttributeError, w).
Proof.
  intros Hd Hv. unfold process_image. run_unfold. rewrite Hd.
  destruct v; try reflexivity. by destruct (Hv d).
Qed.

Lemma process_image_dict ev w d :
  _decode_pubsub_message (L:=L) ev = inr (JObj d) ->
  process_image cfg env ev w =
    if truthy (object_name_of d)
    then process_steps cfg env (JObj d) (upload_id_of d) (bucket_of cfg d) (object_name_of d) w
    else (Ok tt, w).
Proof.
  intros Hd. unfold process_image. run_unfold. rewrite Hd. simpl.
  fold (object_name_of d). by destruct (truthy (object_name_of d)).
Qed.

(** Whatever the outcome, the only writes steps 2 to 5 attempt go to the
    processed bucket, under the name derived from the upload id, as
    image/jpeg. *)
Lemma process_steps_uploads payload upload_id src_bucket object_name w outcome w' :
  process_steps cfg env payload upload_id src_bucket object_name w = (outcome, w') ->
  exists tr : list Call,
    calls w' = calls w ++ tr /\
    forall bucket name blob ok, CallUpload bucket name blob ok ∈ tr ->
      bucket = PROCESSED_BUCKET cfg /\ name = processed_name (L:=L) upload_id /\
      blob_content_type blob = "image/jpeg".
Proof.
  intros Hrun. unfold process_steps, client_name, client_blob_name in Hrun. run_unfold.
  run_cases Hrun; rewrite <- ?app_assoc; simpl;
    first [ exists []; split; [by rewrite app_nil_r|]
          | eexists; split; [reflexivity|] ];
    intros bucket name blob ok Hin; by elem_inv.
Qed.

(** A run of steps 2 to 5 that returns has fetched the raw object,
    converted it, stored the artifact and published the result. *)
Lemma process_steps_completed payload upload_id src_bucket object_name w w' :
  process_steps cfg env payload upload_id src_bucket object_name w = (Ok tt, w') ->
  exists bucket name raw output,
    src_bucket = JStr bucket /\ object_name = JStr name /\
    gcs w !! (bucket, name) = Some raw /\
    convert_to_grayscale (L:=L) (blob_data raw) = inr output /\
    gcs w' = <[(PROCESSED_BUCKET cfg, processed_name (L:=L) upload_id) := artifact output]> (gcs w) /\
    exists data attrs,
      pubsub w' = pubsub w ++ [{| msg_topic := RESULTS_TOPIC cfg; msg_data := data;
                                  msg_attrs := attrs |}] /\
      calls w' = calls w ++
        [ CallDownload bucket name true;
          CallUpload (PROCESSED_BUCKET cfg) (processed_name (L:=L) upload_id)
            (artifact output) true;
          CallPublish (RESULTS_TOPIC cfg) data attrs true ].
Proof.
  intros Hrun. unfold process_steps, client_name, client_blob_name in Hrun. run_unfold.
  run_cases Hrun.
  do 4 eexists. repeat (split; [reflexivity || eassumption|]).
  do 2 eexists. split; [reflexivity|]. by rewrite <- !app_assoc.
Qed.

(** A successful write among the calls of steps 2 to 5 is the write of the
    artifact: the raw object was fetched and converted, and the store holds
    the result under the name derived from the upload id. *)
Lemma process_steps_stored payload upload_id src_bucket object_name w outcome w'
    (tr : list Call) b n blob :
  process_steps cfg env payload upload_id src_bucket object_name w = (outcome, w') ->
  calls w' = calls w ++ tr ->
  CallUpload b n blob true ∈ tr ->
  exists bucket name raw output,
    src_bucket = JStr bucket /\ object_name = JStr name /\
    gcs w !! (bucket, name) = Some raw /\
    convert_to_grayscale (L:=L) (blob_data raw) = inr output /\
    b = PROCESSED_BUCKET cfg /\ n = processed_name (L:=L) upload_id /\
    blob = artifact output /\
    gcs w' = <[(b, n) := blob]> (gcs w).
Proof.
  intros Hrun Htr Hin. unfold process_steps, client_name, client_blob_name in Hrun. run_unfold.
  run_cases Hrun; trace_inv; elem_inv;
    do 4 eexists; repeat (split; [reflexivity || eassumption|]); reflexivity.
Qed.

(** Steps 2 to 4 go through whenever the raw object is there, converts,
    and the store answers. *)
Lemma process_steps_stores payload upload_id bucket name raw output w :
  gcs_read_ok env = true -> gcs_write_ok env = true ->
  gcs w !! (bucket, name) = Some raw ->
  convert_to_grayscale (L:=L) (blob_data raw) = inr output ->
  exists outcome w' rest,
    process_steps cfg env payload upload_id (JStr bucket) (JStr name) w = (outcome, w') /\
    gcs w' !! (PROCESSED_BUCKET cfg, processed_name (L:=L) upload_id)
      = Some (artifact output) /\
    calls w' = calls w ++
      CallDownload bucket name true ::
      CallUpload (PROCESSED_BUCKET cfg) (processed_name (L:=L) upload_id)
        (artifact output) true :: rest.
Proof.
  intros Hr Hw Hraw Hconv. unfold process_steps, client_name, client_blob_name. run_unfold.
  rewrite Hr, Hraw, Hconv, Hw. simpl.
  destruct payload; simpl;
    try (do 3 eexists; split; [reflexivity|]; simpl;
         split; [apply lookup_insert_eq | by rewrite <- app_assoc]).
  destruct upload_id; simpl;
    try (do 3 eexists; split; [reflexivity|]; simpl;
         split; [apply lookup_insert_eq | by rewrite <- app_assoc]).
  destruct (pubsub_ok env); simpl;
    do 3 eexists; (split; [reflexivity|]); simpl;
    (split; [apply lookup_insert_eq | by rewrite <- !app_assoc]).
Qed.
End ProcessImagePaths.

Section ProcessImageClaims.
Context {L : PyLib} (cfg : Config).

(** A completed run on a payload that is a [dict]: the artifact is in the
    store under the name derived from the upload id, and it is the
    conversion of the raw object the payload names. *)
Lemma process_image_completed (env : Env L) ev d w w' :
  _decode_pubsub_message (L:=L) ev = inr (JObj d) ->
  truthy (object_name_of d) = true ->
  process_image cfg env ev w = (Ok tt, w') ->
  exists bucket name raw output,
    bucket_of cfg d = JStr bucket /\ object_name_of d = JStr name /\
    gcs w !! (bucket, name) = Some raw /\
    convert_to_grayscale (L:=L) (blob_data raw) = inr output /\
    gcs w' = <[(PROCESSED_BUCKET cfg, processed_name (L:=L) (upload_id_of d))
               := artifact output]> (gcs w).
Proof.
  intros Hd Ho Hrun. rewrite (process_image_dict cfg env ev w d Hd), Ho in Hrun.
  destruct (process_steps_completed cfg env _ _ _ _ _ _ Hrun)
    as (bucket & name & raw & output & Hb & Hn & Hraw & Hconv & Hgcs & _).
  exists bucket, name, raw, output. by repeat split.
Qed.

(** C1.  Take a Processing Request whose payload is a [dict] and two
    runs of the handler on it, in any two worlds in which the raw object it
    names holds the same bytes, whatever the clock, the store and the queue
    do.  A run that completes on a request that names an object has written
    the artifact.  And whenever each run has written to the store, also
    when it fails afterwards, the two writes are the same: the processed
    bucket, the name derived from the upload id, the same bytes and content
    type; and that object is what each run leaves in the store.  *)
Theorem processing_twice_yields_same_artifact (env1 env2 : Env L) ev d
    w1 outcome1 w1' (tr1 : list Call) w2 outcome2 w2' (tr2 : list Call) :
  _decode_pubsub_message (L:=L) ev = inr (JObj d) ->
  (forall bucket name,
     bucket_of cfg d = JStr bucket -> object_name_of d = JStr name ->
     blob_data <$> gcs w1 !! (bucket, name) = blob_data <$> gcs w2 !! (bucket, name)) ->
  process_image cfg env1 ev w1 = (outcome1, w1') -> calls w1' = calls w1 ++ tr1 ->
  process_image cfg env2 ev w2 = (outcome2, w2') -> calls w2' = calls w2 ++ tr2 ->
  (outcome1 = Ok tt -> truthy (object_name_of d) = true ->
     exists b n blob, CallUpload b n blob true ∈ tr1) /\
  (forall b1 n1 blob1 b2 n2 blob2,
     CallUpload b1 n1 blob1 true ∈ tr1 -> CallUpload b2 n2 blob2 true ∈ tr2 ->
     b1 = PROCESSED_BUCKET cfg /\ n1 = processed_name (L:=L) (upload_id_of d) /\
     b2 = b1 /\ n2 = n1 /\ blob2 = blob1 /\
     gcs w1' !! (b1, n1) = Some blob1 /\ gcs w2' !! (b1, n1) = Some blob1).
Proof.
  intros Hd Hsame Hrun1 Htr1 Hrun2 Htr2.
  rewrite (process_image_dict cfg env1 ev w1 d Hd) in Hrun1.
  rewrite (process_image_dict cfg env2 ev w2 d Hd) in Hrun2.
  split.
  - intros -> Ho. rewrite Ho in Hrun1.
    destruct (process_steps_completed cfg env1 _ _ _ _ _ _ Hrun1)
      as (? & ? & ? & ? & _ & _ & _ & _ & _ & ? & ? & _ & Hcalls).
    rewrite Htr1 in Hcalls. apply app_inv_head in Hcalls. subst tr1.
    do 3 eexists. apply list_elem_of_further, list_elem_of_here.
  - intros b1 n1 blob1 b2 n2 blob2 Hin1 Hin2.
    destruct (truthy (object_name_of d)).
    2:{ injection Hrun1 as <- <-.
        rewrite <- (app_nil_r (calls w1)) in Htr1 at 1. apply app_inv_head in Htr1.
        subst tr1. by elem_inv. }
    destruct (process_steps_stored cfg env1 _ _ _ _ _ _ _ _ _ _ _ Hrun1 Htr1 Hin1)
      as (bk1 & nm1 & raw1 & out1 & Hb1 & Hn1 & Hraw1 & Hc1 & -> & -> & -> & ->).
    destruct (process_steps_stored cfg env2 _ _ _ _ _ _ _ _ _ _ _ Hrun2 Htr2 Hin2)
      as (bk2 & nm2 & raw2 & out2 & Hb2 & Hn2 & Hraw2 & Hc2 & -> & -> & -> & ->).
    assert (bk2 = bk1) as -> by congruence. assert (nm2 = nm1) as -> by congruence.
    specialize (Hsame bk1 nm1 Hb1 Hn1). rewrite Hraw1, Hraw2 in Hsame.
    injection Hsame as Hsame. rewrite <- Hsame, Hc1 in Hc2. injection Hc2 as <-.
    repeat split; try reflexivity; apply lookup_insert_eq.
Qed.

(** Redelivery: when the raw object is not the artifact itself, a second
    completed run, started where the first one ended, leaves the artifact
    as the first run stored it. *)
Lemma redelivery_overwrites_with_same_artifact (env1 env2 : Env L) ev d w w1 w2 :
  _decode_pubsub_message (L:=L) ev = inr (JObj d) ->
  truthy (object_name_of d) = true ->
  (bucket_of cfg d, object_name_of d)
    <> (JStr (PROCESSED_BUCKET cfg), JStr (processed_name (L:=L) (upload_id_of d))) ->
  process_image cfg env1 ev w = (Ok tt, w1) ->
  process_image cfg env2 ev w1 = (Ok tt, w2) ->
  gcs w2 = gcs w1.
Proof.
  intros Hd Ho Hne Hrun1 Hrun2.
  destruct (process_image_completed env1 ev d w w1 Hd Ho Hrun1)
    as (b1 & n1 & raw1 & out1 & Hb1 & Hn1 & Hraw1 & Hc1 & Hg1).
  destruct (process_image_completed env2 ev d w1 w2 Hd Ho Hrun2)
    as (b2 & n2 & raw2 & out2 & Hb2 & Hn2 & Hraw2 & Hc2 & Hg2).
  assert (b2 = b1) as -> by congruence. assert (n2 = n1) as -> by congruence.
  rewrite Hg1, lookup_insert_ne in Hraw2 by (rewrite Hb1, Hn1 in Hne; congruence).
  assert (out2 = out1) as -> by congruence.
  rewrite Hg2, Hg1. apply insert_insert_eq.
Qed.

(** C2.  For a Processing Request whose payload is a [dict], every write
    the handler attempts goes to the processed bucket under
    ["grayscale_" + upload_id + ".jpg"], a name computed from the upload
    id alone, with content type image/jpeg; a run that completes has
    stored the artifact under that name; and for upload id abc-123 the
    name is grayscale_abc-123.jpg. *)
Theorem artifact_name_is_grayscale_upload_id_jpg (env : Env L) ev d w outcome w' :
  _decode_pubsub_message (L:=L) ev = inr (JObj d) ->
  process_image cfg env ev w = (outcome, w') ->
  let key := "grayscale_" +:+ py_str L (upload_id_of d) +:+ ".jpg" in
  (exists tr : list Call,
     calls w' = calls w ++ tr /\
     forall bucket name blob ok, CallUpload bucket name blob ok ∈ tr ->
       bucket = PROCESSED_BUCKET cfg /\ name = key /\
       blob_content_type blob = "image/jpeg") /\
  (outcome = Ok tt -> truthy (object_name_of d) = true ->
     exists blob, gcs w' !! (PROCESSED_BUCKET cfg, key) = Some blob /\
                  blob_content_type blob = "image/jpeg") /\
  (upload_id_of d = JStr "abc-123" -> key = "grayscale_abc-123.jpg").
Proof.
  intros Hd Hrun key. split; [|split].
  - rewrite (process_image_dict cfg env ev w d Hd) in Hrun.
    destruct (truthy (object_name_of d)).
    + apply (process_steps_uploads cfg env _ _ _ _ _ _ _ Hrun).
    + injection Hrun as <- <-. exists []. split; [by rewrite app_nil_r|].
      intros bucket name blob ok Hin. by elem_inv.
  - intros -> Ho.
    destruct (process_image_completed env ev d w w' Hd Ho Hrun)
      as (b & n & raw & out & _ & _ & _ & _ & ->).
    exists (artifact out). split; [apply lookup_insert_eq|reflexivity].
  - intros Hid. unfold key. by rewrite Hid.
Qed.

(** The part of the poison-message policy the handler implements: a
    payload whose decoding raises a [ValueError] (no data, bad base64,
    bad UTF-8, bad JSON), and a [dict] without a usable [object_name],
    are dropped: the handler returns and the world is as it was. *)
Lemma poison_message_dropped (env : Env L) ev w :
  (exists exc, _decode_pubsub_message (L:=L) ev = inl exc /\ is_ValueError exc = true) \/
  (exists d, _decode_pubsub_message (L:=L) ev = inr (JObj d) /\
             truthy (object_name_of d) = false) ->
  process_image cfg env ev w = (Ok tt, w).
Proof.
  intros [(exc & Hd & Hv)|(d & Hd & Ho)].
  - by apply process_image_drops with exc.
  - by rewrite (process_image_dict cfg env ev w d Hd), Ho.
Qed.

(** C3 fails on a payload that is valid JSON but not an object (a list,
    a string, a number, null): such a payload does not have the shape of
    a request, yet the handler raises [AttributeError] on it instead of
    dropping it. *)
Theorem non_object_payload_raises (env : Env L) ev v w :
  _decode_pubsub_message (L:=L) ev = inr v ->
  (forall d, v <> JObj d) ->
  process_image cfg env ev w = (Raise AttributeError, w).
Proof. apply process_image_not_dict. Qed.

(** C8.  Take a payload that is a [dict] without an [upload_id] entry.
    The handler drops the message (returns with the world as it was)
    exactly when [object_name] is missing or empty (false under [not]).
    Otherwise every write it attempts targets grayscale_unknown.jpg, and
    when the raw object is there, converts, and the store answers, the
    run fetches it and stores the artifact under grayscale_unknown.jpg
    in the processed bucket. *)
Theorem missing_upload_id_is_processed_as_unknown (env : Env L) ev d w :
  _decode_pubsub_message (L:=L) ev = inr (JObj d) ->
  (forall default, assoc_get d "upload_id" default = default) ->
  (process_image cfg env ev w = (Ok tt, w) <-> truthy (object_name_of d) = false) /\
  (forall outcome w' (tr : list Call) bucket name blob ok,
     process_image cfg env ev w = (outcome, w') -> calls w' = calls w ++ tr ->
     CallUpload bucket name blob ok ∈ tr ->
     bucket = PROCESSED_BUCKET cfg /\ name = "grayscale_unknown.jpg") /\
  (forall bucket name raw output,
     bucket_of cfg d = JStr bucket -> object_name_of d = JStr name -> name <> "" ->
     gcs_read_ok env = true -> gcs_write_ok env = true ->
     gcs w !! (bucket, name) = Some raw ->
     convert_to_grayscale (L:=L) (blob_data raw) = inr output ->
     exists outcome w' rest,
       process_image cfg env ev w = (outcome, w') /\
       gcs w' !! (PROCESSED_BUCKET cfg, "grayscale_unknown.jpg") = Some (artifact output) /\
       calls w' = calls w ++
         CallDownload bucket name true ::
         CallUpload (PROCESSED_BUCKET cfg) "grayscale_unknown.jpg" (artifact output) true ::
         rest).
Proof.
  intros Hd Hid.
  assert (processed_name (L:=L) (upload_id_of d) = "grayscale_unknown.jpg") as Hkey
    by (unfold upload_id_of; rewrite Hid; reflexivity).
  split; [|split].
  - rewrite (process_image_dict cfg env ev w d Hd).
    destruct (truthy (object_name_of d)) eqn:Ho; [|done].
    split; [|done]. intros Hrun. exfalso.
    destruct (process_steps_completed cfg env _ _ _ _ _ _ Hrun)
      as (? & ? & ? & ? & _ & _ & _ & _ & _ & ? & ? & _ & Hcalls).
    rewrite <- (app_nil_r (calls w)) in Hcalls at 1.
    by apply app_inv_head in Hcalls.
  - intros outcome w' tr bucket name blob ok Hrun Htr Hin.
    rewrite (process_image_dict cfg env ev w d Hd) in Hrun.
    destruct (truthy (object_name_of d)).
    + destruct (process_steps_uploads cfg env _ _ _ _ _ _ _ Hrun) as (tr' & Htr' & Hup).
      rewrite Htr in Htr'. apply app_inv_head in Htr'. subst tr'.
      destruct (Hup _ _ _ _ Hin) as (-> & -> & _). by rewrite Hkey.
    + injection Hrun as <- <-.
      rewrite <- (app_nil_r (calls w)) in Htr at 1. apply app_inv_head in Htr.
      subst tr. by elem_inv.
  - intros bucket name raw output Hb Hn Hne Hr Hw Hraw Hconv.
    rewrite (process_image_dict cfg env ev w d Hd), Hb, Hn. simpl.
    apply String.eqb_neq in Hne. rewrite Hne. simpl.
    rewrite <- Hkey. by apply process_steps_stores with raw.
Qed.
End ProcessImageClaims.

(** ** Notification *)

Section LogNotificationClaims.
Context {L : PyLib}.

(** On a payload that is a [dict] the handler returns after printing one
    entry. *)
Lemma log_notification_dict (env : Env L) ev d w :
  LogNotification._decode_pubsub_message (L:=L) ev = inr (JObj d) ->
  LogNotification.log_notification env ev w =
    (Ok tt,
     {| gcs := gcs w; pubsub := pubsub w;
        stdout := stdout w ++
          [json_dumps L
             (LogNotification.log_entry env
                (assoc_get d "upload_id" (JStr "unknown"))
                (assoc_get d "status" (JStr "UNKNOWN"))
                (assoc_get d "original_bucket" (JStr ""))
                (assoc_get d "original_object" (JStr ""))
                (assoc_get d "original_filename" (JStr ""))
                (assoc_get d "processed_bucket" (JStr ""))
                (assoc_get d "processed_object" (JStr ""))
                (assoc_get d "processed_at" (JStr ""))
                ev)];
        calls := calls w |}).
Proof.
  intros Hd. unfold LogNotification.log_notification. run_unfold. rewrite Hd. reflexivity.
Qed.

(** C7.  Deliver the same Processing Result message (a payload that is a
    [dict]) to the handler twice, the second time where the first run
    ended and with whatever clock.  Neither run raises; each prints one
    completion record; and the two records have the same [upload_id] and
    the same [status], namely those of the payload (or the defaults
    unknown and UNKNOWN when the payload has none). *)
Theorem duplicate_result_logs_same_upload_id_and_status (env1 env2 : Env L) ev d w :
  LogNotification._decode_pubsub_message (L:=L) ev = inr (JObj d) ->
  exists entry1 entry2 w1 w2,
    LogNotification.log_notification env1 ev w = (Ok tt, w1) /\
    LogNotification.log_notification env2 ev w1 = (Ok tt, w2) /\
    stdout w2 = stdout w ++ [json_dumps L (JObj entry1); json_dumps L (JObj entry2)] /\
    assoc_get entry1 "event_type" JNull = JStr "IMAGE_PROCESSING_COMPLETE" /\
    assoc_get entry2 "event_type" JNull = JStr "IMAGE_PROCESSING_COMPLETE" /\
    assoc_get entry1 "upload_id" JNull = assoc_get entry2 "upload_id" JNull /\
    assoc_get entry1 "status" JNull = assoc_get entry2 "status" JNull /\
    assoc_get entry1 "upload_id" JNull = assoc_get d "upload_id" (JStr "unknown") /\
    assoc_get entry1 "status" JNull = assoc_get d "status" (JStr "UNKNOWN").
Proof.
  intros Hd. do 4 eexists.
  split; [apply (log_notification_dict env1 ev d w Hd)|].
  split; [apply (log_notification_dict env2 ev d _ Hd)|].
  simpl. rewrite <- app_assoc. simpl. unfold LogNotification.log_entry.
  split; [reflexivity|]. by repeat split.
Qed.
End LogNotificationClaims.

(** ** Processing and notification on the sample messages *)

(** The sample request for upload abc-123 and object photo.png, run twice
    in a row at different instants, writes the same artifact both times. *)
Lemma processing_twice_yields_same_artifact_witness :
  exists w1 w2 tr1 tr2,
    process_image Sample.cfg Sample.env Sample.request_event Sample.world = (Ok tt, w1) /\
    calls w1 = calls Sample.world ++ tr1 /\
    process_image Sample.cfg Sample.env_later Sample.request_event w1 = (Ok tt, w2) /\
    calls w2 = calls w1 ++ tr2 /\
    CallUpload "processed-bucket" "grayscale_abc-123.jpg" (artifact Sample.image_bytes) true
      ∈ tr1 /\
    CallUpload "processed-bucket" "grayscale_abc-123.jpg" (artifact Sample.image_bytes) true
      ∈ tr2 /\
    gcs w1 !! ("processed-bucket", "grayscale_abc-123.jpg")
      = Some (artifact Sample.image_bytes) /\
    gcs w2 !! ("processed-bucket", "grayscale_abc-123.jpg")
      = Some (artifact Sample.image_bytes).
Proof.
  pose (up := CallUpload "processed-bucket" "grayscale_abc-123.jpg"
                (artifact Sample.image_bytes) true).
  pose (w1 := snd (process_image Sample.cfg Sample.env Sample.request_event Sample.world)).
  pose (w2 := snd (process_image Sample.cfg Sample.env_later Sample.request_event w1)).
  pose (tr1 := calls w1).
  pose (tr2 := drop 3 (calls w2)).
  assert (process_image Sample.cfg Sample.env Sample.request_event Sample.world
            = (Ok tt, w1)) as Hrun1 by (vm_compute; reflexivity).
  assert (process_image Sample.cfg Sample.env_later Sample.request_event w1
            = (Ok tt, w2)) as Hrun2 by (vm_compute; reflexivity).
  assert (calls w1 = calls Sample.world ++ tr1) as Htr1 by reflexivity.
  assert (calls w2 = calls w1 ++ tr2) as Htr2 by (vm_compute; reflexivity).
  assert (up ∈ tr1) as Hin1
    by (change (up ∈ tr1) with (up ∈ CallDownload "raw-bucket" "photo.png" true
                                       :: up :: drop 2 tr1);
        apply list_elem_of_further, list_elem_of_here).
  assert (up ∈ tr2) as Hin2
    by (change (up ∈ tr2) with (up ∈ CallDownload "raw-bucket" "photo.png" true
                                       :: up :: drop 2 tr2);
        apply list_elem_of_further, list_elem_of_here).
  assert (forall bucket name,
            bucket_of Sample.cfg [ ("upload_id", JStr "abc-123"); ("bucket", JStr "raw-bucket");
                                   ("object_name", JStr "photo.png") ] = JStr bucket ->
            object_name_of [ ("upload_id", JStr "abc-123"); ("bucket", JStr "raw-bucket");
                             ("object_name", JStr "photo.png") ] = JStr name ->
            blob_data <$> gcs Sample.world !! (bucket, name)
              = blob_data <$> gcs w1 !! (bucket, name)) as Hsame.
  { intros bucket name Hb Hn. vm_compute in Hb, Hn.
    injection Hb as <-. injection Hn as <-. vm_compute. reflexivity. }
  destruct (proj2 (processing_twice_yields_same_artifact Sample.cfg Sample.env
                     Sample.env_later Sample.request_event _
                     Sample.world (Ok tt) w1 tr1 w1 (Ok tt) w2 tr2
                     eq_refl Hsame Hrun1 Htr1 Hrun2 Htr2)
              _ _ _ _ _ _ Hin1 Hin2)
    as (_ & _ & _ & _ & _ & Hg1 & Hg2).
  exists w1, w2, tr1, tr2. repeat split; assumption.
Defined.

(** For upload abc-123 and object photo.png the artifact is stored under
    grayscale_abc-123.jpg. *)
Lemma artifact_name_is_grayscale_upload_id_jpg_witness :
  exists w' blob,
    process_image Sample.cfg Sample.env Sample.request_event Sample.world = (Ok tt, w') /\
    gcs w' !! ("processed-bucket", "grayscale_abc-123.jpg") = Some blob /\
    blob_content_type blob = "image/jpeg".
Proof.
  pose (w' := snd (process_image Sample.cfg Sample.env Sample.request_event Sample.world)).
  assert (process_image Sample.cfg Sample.env Sample.request_event Sample.world
            = (Ok tt, w')) as Hrun by (vm_compute; reflexivity).
  destruct (artifact_name_is_grayscale_upload_id_jpg Sample.cfg Sample.env
              Sample.request_event _ Sample.world (Ok tt) w' eq_refl Hrun)
    as (_ & Hstored & _).
  destruct (Hstored eq_refl eq_refl) as (blob & Hblob & Hct).
  exists w', blob. repeat split; assumption.
Defined.

(** A message whose payload is the JSON text of an empty list makes the
    handler raise. *)
Lemma non_object_payload_raises_witness :
  _decode_pubsub_message (L:=Sample.lib) Sample.list_event = inr (JArr []) /\
  process_image Sample.cfg Sample.env Sample.list_event Sample.world
    = (Raise AttributeError, Sample.world).
Proof.
  split; [reflexivity|].
  apply (non_object_payload_raises Sample.cfg Sample.env Sample.list_event (JArr [])
           Sample.world eq_refl).
  intros d. discriminate.
Defined.

(** A request without an upload id is processed into grayscale_unknown.jpg. *)
Lemma missing_upload_id_is_processed_as_unknown_witness :
  _decode_pubsub_message (L:=Sample.lib) Sample.request_without_id_event
    = inr (JObj [("object_name", JStr "photo.png")]) /\
  exists outcome w' rest,
    process_image Sample.cfg Sample.env Sample.request_without_id_event Sample.world
      = (outcome, w') /\
    gcs w' !! ("processed-bucket", "grayscale_unknown.jpg")
      = Some (artifact Sample.image_bytes) /\
    calls w' = calls Sample.world ++
      CallDownload "raw-bucket" "photo.png" true ::
      CallUpload "processed-bucket" "grayscale_unknown.jpg"
        (artifact Sample.image_bytes) true :: rest.
Proof.
  split; [reflexivity|].
  assert ("photo.png" <> "") as Hne by discriminate.
  exact (proj2 (proj2 (missing_upload_id_is_processed_as_unknown Sample.cfg Sample.env
           Sample.request_without_id_event [("object_name", JStr "photo.png")] Sample.world
           eq_refl (fun default => eq_refl)))
         "raw-bucket" "photo.png"
         {| blob_data := Sample.image_bytes; blob_content_type := "image/png" |}
         Sample.image_bytes eq_refl eq_refl Hne eq_refl eq_refl eq_refl eq_refl).
Defined.

(** The sample result message, delivered twice, is logged twice with upload
    id abc-123 and status SUCCESS. *)
Lemma duplicate_result_logs_same_upload_id_and_status_witness :
  exists entry1 entry2 w1 w2,
    LogNotification.log_notification Sample.env Sample.result_event Sample.empty_world
      = (Ok tt, w1) /\
    LogNotification.log_notification Sample.env_later Sample.result_event w1 = (Ok tt, w2) /\
    stdout w2 = [json_dumps Sample.lib (JObj entry1); json_dumps Sample.lib (JObj entry2)] /\
    assoc_get entry1 "upload_id" JNull = JStr "abc-123" /\
    assoc_get entry2 "upload_id" JNull = JStr "abc-123" /\
    assoc_get entry1 "status" JNull = JStr "SUCCESS" /\
    assoc_get entry2 "status" JNull = JStr "SUCCESS".
Proof.
  destruct (duplicate_result_logs_same_upload_id_and_status Sample.env Sample.env_later
              Sample.result_event
              [("upload_id", JStr "abc-123"); ("status", JStr "SUCCESS")]
              Sample.empty_world eq_refl)
    as (entry1 & entry2 & w1 & w2 & Hrun1 & Hrun2 & Hout & _ & _ & Hid & Hst & Hid1 & Hst1).
  exists entry1, entry2, w1, w2.
  split; [exact Hrun1|]. split; [exact Hrun2|]. split; [exact Hout|].
  split; [exact Hid1|]. split; [rewrite <- Hid; exact Hid1|].
  split; [exact Hst1|]. rewrite <- Hst. exact Hst1.
Defined.

(** ** The string functions on sample names *)

Example splitext_upper : splitext "PHOTO.JPG" = ("PHOTO", ".JPG").
Proof. reflexivity. Qed.

Example splitext_last_dot : splitext "a.tar.GZ" = ("a.tar", ".GZ").
Proof. reflexivity. Qed.

Example splitext_leading_dots : splitext "..jpg" = ("..jpg", "").
Proof. reflexivity. Qed.

Example splitext_dot_in_directory : splitext "a.b/c" = ("a.b/c", "").
Proof. reflexivity. Qed.

Example splitext_hidden_in_directory : splitext "dir.d/..x.Png" = ("dir.d/..x", ".Png").
Proof. reflexivity. Qed.

Example lower_extension : lower ".JpEg" = ".jpeg".
Proof. reflexivity. Qed.

(** * Further properties of the handlers *)

(** ** The string functions: [splitext] and [lower] *)

Lemma rfind_from_cases i found c s :
  found < i ->
  (rfind_from i found c s = found /\ forall n, String.get n s <> Some c) \/
  (exists k : nat,
     rfind_from i found c s = i + Z.of_nat k /\ String.get k s = Some c /\
     forall n, (k < n)%nat -> String.get n s <> Some c).
Proof.
  revert i found. induction s as [|a s IH]; intros i found Hlt; simpl.
  - left. split; [reflexivity|]. intros n. by destruct n.
  - destruct (Ascii.eqb a c) eqn:Hac.
    + apply Ascii.eqb_eq in Hac. subst a.
      destruct (IH (i + 1) i ltac:(lia)) as [[Hr Hno]|(k & Hr & Hk & Hno)].
      * right. exists 0%nat. rewrite Hr. split; [lia|]. split; [reflexivity|].
        intros [|n] Hn; [lia|]. apply Hno.
      * right. exists (S k). rewrite Hr. split; [lia|]. split; [exact Hk|].
        intros [|n] Hn; [lia|]. apply Hno. lia.
    + apply Ascii.eqb_neq in Hac.
      destruct (IH (i + 1) found ltac:(lia)) as [[Hr Hno]|(k & Hr & Hk & Hno)].
      * left. split; [exact Hr|]. intros [|n]; [congruence|]. apply Hno.
      * right. exists (S k). rewrite Hr. split; [lia|]. split; [exact Hk|].
        intros [|n] Hn; [lia|]. apply Hno. lia.
Qed.

Lemma rfind_cases c s :
  (rfind c s = -1 /\ forall n, String.get n s <> Some c) \/
  (exists k : nat,
     rfind c s = Z.of_nat k /\ String.get k s = Some c /\
     forall n, (k < n)%nat -> String.get n s <> Some c).
Proof.
  destruct (rfind_from_cases 0 (-1) c s ltac:(lia)) as [?|(k & ? & ?)]; [by left|].
  right. exists k. by rewrite Z.add_0_l in *.
Qed.

Lemma get_beyond_length s n :
  (String.length s <= n)%nat -> String.get n s = None.
Proof.
  revert n. induction s as [|a s IH]; intros [|n] Hn; simpl in *;
    try reflexivity; try lia.
  apply IH. lia.
Qed.

Lemma substring_all s : String.substring 0 (String.length s) s = s.
Proof. induction s as [|a s IH]; simpl; [reflexivity|]. by rewrite IH. Qed.

Lemma substring_split n s :
  String.substring 0 n s +:+ String.substring n (String.length s - n) s = s.
Proof.
  revert n. induction s as [|a s IH]; intros [|n]; simpl; try reflexivity.
  - by rewrite substring_all.
  - change (String a (String.substring 0 n s
                       +:+ String.substring n (String.length s - n) s) = String a s).
    f_equal. apply IH.
Qed.

(** Root and extension, put together, give the path back. *)
Theorem splitext_root_ext p :
  fst (splitext p) +:+ snd (splitext p) = p.
Proof.
  unfold splitext.
  destruct (_ && _); simpl.
  - apply substring_split.
  - induction p as [|a p IH]; [reflexivity|].
    change (String a (p +:+ "") = String a p). by rewrite IH.
Qed.

(** The extension is empty, or it is a dot followed by characters that are
    neither dots nor slashes. *)
Theorem splitext_ext_shape p :
  snd (splitext p) = "" \/
  (String.get 0 (snd (splitext p)) = Some "."%char /\
   forall n, (0 < n)%nat ->
     String.get n (snd (splitext p)) <> Some "."%char /\
     String.get n (snd (splitext p)) <> Some "/"%char).
Proof.
  unfold splitext.
  destruct (rfind_cases "." p) as [[Hd _]|(k & Hd & Hk & Hafter)].
  { left. rewrite Hd.
    assert (Z.ltb (rfind "/" p) (-1) = false) as ->; [|reflexivity].
    apply Z.ltb_ge. destruct (rfind_cases "/" p) as [[-> _]|(j & -> & _)]; lia. }
  destruct (_ && _) eqn:Hcond; [|by left]. right. simpl.
  apply andb_true_iff in Hcond as [Hsep _]. apply Z.ltb_lt in Hsep.
  rewrite Hd in *. rewrite Nat2Z.id.
  assert (k < String.length p)%nat as Hlen.
  { destruct (Nat.lt_ge_cases k (String.length p)) as [?|Hge]; [done|].
    rewrite (get_beyond_length p k Hge) in Hk. discriminate. }
  assert (forall n, (n < String.length p - k)%nat ->
            String.get n (String.substring k (String.length p - k) p)
            = String.get (n + k) p) as Hget
    by (intros n Hn; by apply substring_correct1).
  split.
  - rewrite Hget by lia. exact Hk.
  - intros n Hn.
    destruct (Nat.lt_ge_cases n (String.length p - k)) as [Hin|Hout].
    + rewrite Hget by done. split; [apply Hafter; lia|].
      destruct (rfind_cases "/" p) as [[_ Hno]|(j & Hj & _ & Hno)]; [apply Hno|].
      apply Hno. lia.
    + rewrite substring_correct2 by lia. split; discriminate.
Qed.

Lemma ascii_lower_idem a : ascii_lower (ascii_lower a) = ascii_lower a.
Proof. destruct a as [[] [] [] [] [] [] [] []]; reflexivity. Qed.

Lemma ascii_lower_dot a : Ascii.eqb (ascii_lower a) "." = Ascii.eqb a ".".
Proof. destruct a as [[] [] [] [] [] [] [] []]; reflexivity. Qed.

Lemma ascii_lower_slash a : Ascii.eqb (ascii_lower a) "/" = Ascii.eqb a "/".
Proof. destruct a as [[] [] [] [] [] [] [] []]; reflexivity. Qed.

Lemma lower_idempotent s : lower (lower s) = lower s.
Proof.
  induction s as [|a s IH]; simpl; [reflexivity|]. by rewrite ascii_lower_idem, IH.
Qed.

Lemma lower_length s : String.length (lower s) = String.length s.
Proof. induction s as [|a s IH]; simpl; [reflexivity|]. by rewrite IH. Qed.

Lemma lower_empty s : lower s = "" <-> s = "".
Proof. split; [by destruct s|by intros ->]. Qed.

Lemma lower_get n s : String.get n (lower s) = ascii_lower <$> String.get n s.
Proof.
  revert n. induction s as [|a s IH]; intros [|n]; simpl; try reflexivity. apply IH.
Qed.

Lemma lower_substring n m s :
  String.substring n m (lower s) = lower (String.substring n m s).
Proof.
  revert n m. induction s as [|a s IH]; intros [|n] [|m]; simpl; try reflexivity;
    by rewrite IH.
Qed.

Lemma lower_rfind_from i found c s :
  (forall a, Ascii.eqb (ascii_lower a) c = Ascii.eqb a c) ->
  rfind_from i found c (lower s) = rfind_from i found c s.
Proof.
  intros Hc. revert i found. induction s as [|a s IH]; intros i found; simpl;
    [reflexivity|]. by rewrite Hc, IH.
Qed.

Lemma lower_has_stem p i n : has_stem (lower p) i n = has_stem p i n.
Proof.
  revert i. induction n as [|n IH]; intros i; simpl; [reflexivity|].
  rewrite lower_get. destruct (String.get i p) as [a|]; simpl; [|reflexivity].
  by rewrite ascii_lower_dot, IH.
Qed.

(** Lowercasing a path and splitting it is splitting it and lowercasing the
    two parts. *)
Lemma splitext_lower p :
  splitext (lower p) = (lower (fst (splitext p)), lower (snd (splitext p))).
Proof.
  unfold splitext, rfind.
  rewrite !lower_rfind_from by (apply ascii_lower_slash || apply ascii_lower_dot).
  rewrite lower_has_stem, lower_length, !lower_substring.
  by destruct (_ && _).
Qed.

(** ** Ingress: further properties *)

Section UploadImageMore.
Context {L : PyLib} (cfg : Config) (env : Env L).

(** The run of an accepted upload when store and queue answer. *)
Lemma upload_image_queued request w file :
  passes_validation request file ->
  gcs_write_ok env = true -> pubsub_ok env = true ->
  upload_image cfg env request w =
    (Ok (jsonify [ ("upload_id",   JStr (env_uuid4 env));
                   ("object_name", JStr (raw_object_name env file));
                   ("message",     JStr "Image accepted and queued for processing.");
                   ("status",      JStr "PROCESSING") ] 202),
     {| gcs := <[(UPLOADS_BUCKET cfg, raw_object_name env file) := raw_blob file]> (gcs w);
        pubsub := pubsub w ++ [{| msg_topic := PUBSUB_TOPIC cfg;
                                  msg_data := request_data cfg env file;
                                  msg_attrs := [("upload_id", env_uuid4 env)] |}];
        stdout := stdout w;
        calls := (calls w ++ [CallUpload (UPLOADS_BUCKET cfg) (raw_object_name env file)
                                (raw_blob file) true]) ++
                 [CallPublish (PUBSUB_TOPIC cfg) (request_data cfg env file)
                    [("upload_id", env_uuid4 env)] true] |}).
Proof.
  intros Hv Hw Hp. by rewrite (upload_image_accepted cfg env request w file Hv), Hw, Hp.
Qed.

(** Once a request has passed validation, no failure of the store or of
    the queue leaves the handler: each of the two [try] blocks turns it
    into a response.  The answer is 202 when the write and the publish
    both succeed, and 500 otherwise. *)
Theorem validated_upload_is_answered_202_or_500 request w file :
  passes_validation request file ->
  exists response w',
    upload_image cfg env request w = (Ok response, w') /\
    (status response = 202 \/ status response = 500) /\
    (status response = 202 <-> gcs_write_ok env = true /\ pubsub_ok env = true).
Proof.
  intros Hv. rewrite (upload_image_accepted cfg env request w file Hv).
  destruct (gcs_write_ok env); [destruct (pubsub_ok env)|];
    do 2 eexists; (split; [reflexivity|]); simpl;
    (split; [auto|]); split; try done; by intros [? ?].
Qed.

(** When the raw object is stored and the publish then fails, the answer is
    500 with a body of its own, different from the one for a failed store
    write, and the object stays in the store.  The queue holds nothing new,
    or, when the failure came after the message was handed over, the
    request for this upload. *)
Theorem publish_failure_leaves_stored_object request w file :
  passes_validation request file ->
  gcs_write_ok env = true -> pubsub_ok env = false ->
  exists w',
    upload_image cfg env request w
      = (Ok (jsonify [("error", JStr "Image stored but failed to queue for processing.")] 500),
         w') /\
    gcs w' !! (UPLOADS_BUCKET cfg, raw_object_name env file) = Some (raw_blob file) /\
    (pubsub w' = pubsub w \/
     pubsub w' = pubsub w ++ [{| msg_topic := PUBSUB_TOPIC cfg;
                                 msg_data := request_data cfg env file;
                                 msg_attrs := [("upload_id", env_uuid4 env)] |}]) /\
    (pubsub w' = pubsub w <-> pubsub_queued_on_failure env = false) /\
    jsonify [("error", JStr "Image stored but failed to queue for processing.")] 500
      <> jsonify [("error", JStr "Failed to store image. Please retry.")] 500.
Proof.
  intros Hv Hw Hp. rewrite (upload_image_accepted cfg env request w file Hv), Hw, Hp.
  eexists. split; [reflexivity|]. simpl.
  split; [apply lookup_insert_eq|].
  destruct (pubsub_queued_on_failure env).
  - split; [by right|]. split; [|discriminate]. split; [|done].
    intros Heq. rewrite <- (app_nil_r (pubsub w)) in Heq at 2.
    apply app_inv_head in Heq. discriminate.
  - split; [by left|]. split; [done|discriminate].
Qed.

(** An accepted upload is stored from the first byte of the stream to the
    last, wherever the read position of the stream was, under the object
    name the 202 response reports. *)
Theorem accepted_upload_stores_whole_stream request w response w' file :
  upload_image cfg env request w = (Ok response, w') ->
  status response = 202 ->
  files_get (files request) "image" = Some file ->
  exists name blob entries,
    body response = BodyJson (JObj entries) /\
    assoc_get entries "object_name" JNull = JStr name /\
    assoc_get entries "upload_id" JNull = JStr (env_uuid4 env) /\
    assoc_get entries "status" JNull = JStr "PROCESSING" /\
    gcs w' !! (UPLOADS_BUCKET cfg, name) = Some blob /\
    blob_data blob = stream file.
Proof.
  intros Hrun Hst Hf.
  destruct (upload_image_cases cfg env request w) as [[file' Hv]|(r & Hr & Hs)].
  - assert (file' = file) as -> by (destruct Hv as (_ & Hf' & _); congruence).
    rewrite (upload_image_accepted cfg env request w file Hv) in Hrun.
    destruct (gcs_write_ok env); [destruct (pubsub_ok env)|];
      simpl in Hrun; injection Hrun as <- <-; simpl in Hst; try done.
    exists (raw_object_name env file), (raw_blob file). eexists. simpl.
    split; [reflexivity|]. do 3 (split; [reflexivity|]).
    split; [apply lookup_insert_eq|reflexivity].
  - rewrite Hr in Hrun. injection Hrun as <- <-. lia.
Qed.

(** The Processing Request published for an accepted upload locates the
    stored object (its [bucket] and [object_name] are the key under which
    the raw object is in the store), is labelled and keyed by the upload id
    of the response, and keeps the filename as the client sent it. *)
Theorem published_request_locates_stored_object request w response w' file :
  upload_image cfg env request w = (Ok response, w') ->
  status response = 202 ->
  files_get (files request) "image" = Some file ->
  exists bucket name message entries,
    pubsub w' = pubsub w ++ [message] /\
    msg_attrs message = [("upload_id", env_uuid4 env)] /\
    msg_data message = str_encode L (json_dumps L (JObj entries)) /\
    assoc_get entries "upload_id" JNull = JStr (env_uuid4 env) /\
    assoc_get entries "bucket" JNull = JStr bucket /\
    assoc_get entries "object_name" JNull = JStr name /\
    assoc_get entries "original_filename" JNull = JStr (filename file) /\
    is_Some (gcs w' !! (bucket, name)).
Proof.
  intros Hrun Hst Hf.
  destruct (upload_image_cases cfg env request w) as [[file' Hv]|(r & Hr & Hs)].
  - assert (file' = file) as -> by (destruct Hv as (_ & Hf' & _); congruence).
    rewrite (upload_image_accepted cfg env request w file Hv) in Hrun.
    destruct (gcs_write_ok env); [destruct (pubsub_ok env)|];
      simpl in Hrun; injection Hrun as <- <-; simpl in Hst; try done.
    exists (UPLOADS_BUCKET cfg), (raw_object_name env file). do 2 eexists. simpl.
    split; [reflexivity|]. do 6 (split; [reflexivity|]).
    rewrite lookup_insert_eq. by eexists.
  - rewrite Hr in Hrun. injection Hrun as <- <-. lia.
Qed.

(** A file whose name has no dot has no extension and is rejected. *)
Theorem filename_without_dot_is_rejected request w file :
  method request = "POST" ->
  files_get (files request) "image" = Some file ->
  (forall n, String.get n (filename file) <> Some "."%char) ->
  exists response,
    upload_image cfg env request w = (Ok response, w) /\ status response = 400.
Proof.
  intros Hm Hf Hno. apply upload_image_invalid; [done|].
  intros file' (_ & Hf' & _ & He). assert (file' = file) as -> by congruence.
  unfold checked_ext, splitext in He.
  destruct (rfind_cases "." (filename file)) as [[Hd _]|(k & _ & Hk & _)];
    [|by destruct (Hno k)].
  rewrite Hd in He.
  assert (Z.ltb (rfind "/" (filename file)) (-1) = false) as Hsep.
  { apply Z.ltb_ge.
    destruct (rfind_cases "/" (filename file)) as [[-> _]|(j & -> & _)]; lia. }
  rewrite Hsep in He. simpl in He. revert He. compute_done.
Qed.

(** The answer does not depend on the case of the letters of the filename:
    two requests with the same method whose files have names equal up to
    case get the same status, in the same world and environment. *)
Theorem upload_status_ignores_filename_case request1 request2 file1 file2 w
    response1 w1 response2 w2 :
  method request1 = method request2 ->
  files_get (files request1) "image" = Some file1 ->
  files_get (files request2) "image" = Some file2 ->
  lower (filename file1) = lower (filename file2) ->
  upload_image cfg env request1 w = (Ok response1, w1) ->
  upload_image cfg env request2 w = (Ok response2, w2) ->
  status response1 = status response2.
Proof.
  intros Hm Hf1 Hf2 Hlow Hrun1 Hrun2.
  assert (checked_ext file1 = checked_ext file2) as Hext.
  { unfold checked_ext.
    rewrite <- (lower_idempotent (snd (splitext (filename file1)))),
            <- (lower_idempotent (snd (splitext (filename file2)))).
    change (lower (snd (splitext (filename file1))))
      with (snd (lower (fst (splitext (filename file1))),
                 lower (snd (splitext (filename file1))))).
    change (lower (snd (splitext (filename file2))))
      with (snd (lower (fst (splitext (filename file2))),
                 lower (snd (splitext (filename file2))))).
    by rewrite <- !splitext_lower, Hlow. }
  assert (filename file1 = "" <-> filename file2 = "") as Hempty
    by (rewrite <- (lower_empty (filename file1)), <- (lower_empty (filename file2));
        by rewrite Hlow).
  assert (forall (ra rb : Request) (fa fb : FileStorage),
            method ra = method rb ->
            files_get (files rb) "image" = Some fb ->
            (filename fa = "" <-> filename fb = "") ->
            checked_ext fa = checked_ext fb ->
            passes_validation ra fa -> passes_validation rb fb) as Hpass.
  { intros ra rb fa fb Hmab Hfb Hab Hx (Hma & _ & Hna & Hea).
    repeat split; [congruence|done|tauto|by rewrite <- Hx]. }
  destruct (decide (method request1 = "OPTIONS")) as [Ho|Ho].
  { destruct (upload_image_options cfg env request1 w Ho) as (r1 & Hr1 & Hs1).
    destruct (upload_image_options cfg env request2 w ltac:(congruence)) as (r2 & Hr2 & Hs2).
    congruence. }
  destruct (decide (method request1 = "POST")) as [Hp|Hp].
  2:{ destruct (upload_image_other_method cfg env request1 w Ho Hp) as (r1 & Hr1 & Hs1).
      destruct (upload_image_other_method cfg env request2 w ltac:(congruence)
                  ltac:(congruence)) as (r2 & Hr2 & Hs2).
      congruence. }
  destruct (upload_image_cases cfg env request1 w) as [[f Hv]|(r1 & Hr1 & Hs1)].
  - assert (f = file1) as -> by (destruct Hv as (_ & Hf' & _); congruence).
    pose proof (Hpass request1 request2 file1 file2 Hm Hf2 Hempty Hext Hv) as Hv2.
    rewrite (upload_image_accepted cfg env request1 w file1 Hv) in Hrun1.
    rewrite (upload_image_accepted cfg env request2 w file2 Hv2) in Hrun2.
    destruct (gcs_write_ok env); [destruct (pubsub_ok env)|];
      simpl in *; by simplify_eq.
  - destruct (upload_image_cases cfg env request2 w) as [[f Hv]|(r2 & Hr2 & Hs2)].
    + assert (f = file2) as -> by (destruct Hv as (_ & Hf' & _); congruence).
      assert (passes_validation request1 file1) as Hv1
        by (apply (Hpass request2 request1 file2 file1); try done; tauto).
      rewrite (upload_image_accepted cfg env request1 w file1 Hv1) in Hr1.
      destruct (gcs_write_ok env); [destruct (pubsub_ok env)|];
        simpl in *; simplify_eq; simpl in *; lia.
    + destruct (upload_image_invalid cfg env request1 w Hp) as (ra & Hra & Hsa).
      { intros f Hv. rewrite (upload_image_accepted cfg env request1 w f Hv) in Hr1.
        destruct (gcs_write_ok env); [destruct (pubsub_ok env)|];
          simpl in *; simplify_eq; simpl in *; lia. }
      destruct (upload_image_invalid cfg env request2 w ltac:(congruence)) as (rb & Hrb & Hsb).
      { intros f Hv. rewrite (upload_image_accepted cfg env request2 w f Hv) in Hr2.
        destruct (gcs_write_ok env); [destruct (pubsub_ok env)|];
          simpl in *; simplify_eq; simpl in *; lia. }
      congruence.
Qed.
End UploadImageMore.

(** ** Processing: further properties *)

(** Splitting an explicit trace around one of its calls. *)
Ltac split_trace pre :=
  repeat (destruct pre as [|? pre]; simplify_eq/=).

Section ProcessImageMore.
Context {L : PyLib} (cfg : Config) (env : Env L).

(** A run of the handler either leaves the world as it was, or it is a run
    of steps 2 to 5 on a payload that is a [dict] and names an object. *)
Lemma process_image_inv ev w outcome w' :
  process_image cfg env ev w = (outcome, w') ->
  w' = w \/
  exists d,
    _decode_pubsub_message (L:=L) ev = inr (JObj d) /\
    truthy (object_name_of d) = true /\
    process_steps cfg env (JObj d) (upload_id_of d) (bucket_of cfg d) (object_name_of d) w
      = (outcome, w').
Proof.
  intros Hrun.
  destruct (_decode_pubsub_message (L:=L) ev) as [exc|v] eqn:Hd.
  - left. destruct (is_ValueError exc) eqn:Hv.
    + rewrite (process_image_drops cfg env ev w exc Hd Hv) in Hrun. congruence.
    + rewrite (process_image_reraises cfg env ev w exc Hd Hv) in Hrun. congruence.
  - destruct v as [| | | | | |d];
      try (left; rewrite (process_image_not_dict cfg env ev w _ Hd) in Hrun;
           [congruence|discriminate]).
    rewrite (process_image_dict cfg env ev w d Hd) in Hrun.
    destruct (truthy (object_name_of d)) eqn:Ho; [|left; congruence].
    right. by exists d.
Qed.

(** The result message is published last and at most once.  Whatever the
    outcome, a run leaves the queue as it was or adds one message, on the
    results topic, and a run that added one had written the artifact to the
    processed bucket before.  Such a run returns, or it raises the failure
    of a publish that had already handed the message over.  Where a failed
    publish queues nothing, a run that raises has published nothing. *)
Theorem process_image_publishes_at_most_once ev w outcome w' :
  process_image cfg env ev w = (outcome, w') ->
  (pubsub w' = pubsub w \/
   exists data attrs name blob,
     pubsub w' = pubsub w ++ [{| msg_topic := RESULTS_TOPIC cfg; msg_data := data;
                                 msg_attrs := attrs |}] /\
     gcs w' !! (PROCESSED_BUCKET cfg, name) = Some blob /\
     CallUpload (PROCESSED_BUCKET cfg) name blob true ∈ calls w' /\
     (outcome = Ok tt \/
      outcome = Raise ServiceError /\
      pubsub_ok env = false /\ pubsub_queued_on_failure env = true)) /\
  (pubsub_ok env = true \/ pubsub_queued_on_failure env = false ->
   forall exc, outcome = Raise exc -> pubsub w' = pubsub w).
Proof.
  intros Hrun. destruct (process_image_inv ev w outcome w' Hrun) as [->|(d & _ & _ & Hs)].
  { split; [by left|done]. }
  clear Hrun. unfold process_steps, client_name, client_blob_name in Hs. run_unfold.
  run_cases Hs; try (split; [by left|intros _ exc' ?; by simplify_eq]).
  - split; [|intros _ exc' ?; by simplify_eq].
    right. do 4 eexists. split; [reflexivity|]. split; [apply lookup_insert_eq|].
    split; [|by left].
    rewrite !elem_of_app, !list_elem_of_singleton. left. right. reflexivity.
  - destruct (pubsub_queued_on_failure env) eqn:Hq.
    + split; [|intros [?|?] exc' ?; by simplify_eq].
      right. do 4 eexists. split; [reflexivity|]. split; [apply lookup_insert_eq|].
      split; [|right; by repeat split].
      rewrite !elem_of_app, !list_elem_of_singleton. left. right. reflexivity.
    + split; [by left|done].
Qed.

(** The order of the remote calls of a run: a write to the store is
    attempted only after a successful download, and a publish only after a
    successful write. *)
Theorem process_image_call_order ev w outcome w' (tr : list Call) :
  process_image cfg env ev w = (outcome, w') ->
  calls w' = calls w ++ tr ->
  (forall pre bucket name blob ok post,
     tr = pre ++ CallUpload bucket name blob ok :: post ->
     exists bucket' name', CallDownload bucket' name' true ∈ pre) /\
  (forall pre c post,
     tr = pre ++ c :: post -> is_publish c = true ->
     exists bucket name blob, CallUpload bucket name blob true ∈ pre).
Proof.
  intros Hrun Htr.
  destruct (process_image_inv ev w outcome w' Hrun) as [->|(d & _ & _ & Hs)].
  { trace_inv. split; intros pre; intros; by destruct pre. }
  clear Hrun. unfold process_steps, client_name, client_blob_name in Hs. run_unfold.
  run_cases Hs; trace_inv; split.
  all: try (intros pre bucket name blob ok post Heq; split_trace pre;
            do 2 eexists; apply list_elem_of_here).
  all: intros pre c post Heq Hpub; split_trace pre;
    do 3 eexists; apply list_elem_of_further, list_elem_of_here.
Qed.

(** Step 2 fails when the raw object is not in the store.  For a bucket of
    the store (one that holds an object) that does not hold the object the
    request names, the handler raises [NotFound] after the one failed
    download; nothing is written and nothing is published. *)
Theorem missing_raw_object_raises_not_found ev d bucket name other blob w :
  _decode_pubsub_message (L:=L) ev = inr (JObj d) ->
  bucket_of cfg d = JStr bucket -> object_name_of d = JStr name -> name <> "" ->
  gcs_read_ok env = true ->
  gcs w !! (bucket, other) = Some blob ->
  gcs w !! (bucket, name) = None ->
  exists w',
    process_image cfg env ev w = (Raise NotFound, w') /\
    calls w' = calls w ++ [CallDownload bucket name false] /\
    gcs w' = gcs w /\ pubsub w' = pubsub w.
Proof.
  intros Hd Hb Hn Hne Hr _ Hnone.
  rewrite (process_image_dict cfg env ev w d Hd), Hb, Hn. simpl.
  apply String.eqb_neq in Hne. rewrite Hne. simpl.
  unfold process_steps, client_name, client_blob_name. run_unfold. rewrite Hr, Hnone.
  eexists. by repeat split.
Qed.

(** Step 3 fails when Pillow cannot open, convert or save the image: the
    handler raises the exception Pillow raised; nothing is written and
    nothing is published. *)
Theorem failed_conversion_raises_without_writing ev d bucket name raw exc w :
  _decode_pubsub_message (L:=L) ev = inr (JObj d) ->
  bucket_of cfg d = JStr bucket -> object_name_of d = JStr name -> name <> "" ->
  gcs_read_ok env = true ->
  gcs w !! (bucket, name) = Some raw ->
  convert_to_grayscale (L:=L) (blob_data raw) = inl exc ->
  exists w',
    process_image cfg env ev w = (Raise exc, w') /\
    calls w' = calls w ++ [CallDownload bucket name true] /\
    gcs w' = gcs w /\ pubsub w' = pubsub w.
Proof.
  intros Hd Hb Hn Hne Hr Hraw Hconv.
  rewrite (process_image_dict cfg env ev w d Hd), Hb, Hn. simpl.
  apply String.eqb_neq in Hne. rewrite Hne. simpl.
  unfold process_steps, client_name, client_blob_name. run_unfold. rewrite Hr, Hraw, Hconv.
  eexists. by repeat split.
Qed.

(** The handler changes the store at the artifact's key and nowhere else:
    every other object, the raw one included when it is not the artifact
    itself, is left as it was, whatever the outcome. *)
Theorem process_image_touches_only_the_artifact ev d w outcome w' :
  _decode_pubsub_message (L:=L) ev = inr (JObj d) ->
  process_image cfg env ev w = (outcome, w') ->
  forall bucket name,
    (bucket, name) <> (PROCESSED_BUCKET cfg, processed_name (L:=L) (upload_id_of d)) ->
    gcs w' !! (bucket, name) = gcs w !! (bucket, name).
Proof.
  intros Hd Hrun bucket name Hne.
  destruct (process_image_inv ev w outcome w' Hrun) as [->|(d' & Hd' & _ & Hs)]; [done|].
  assert (d' = d) as -> by congruence.
  clear Hrun. unfold process_steps, client_name, client_blob_name in Hs. run_unfold.
  run_cases Hs; try reflexivity; by rewrite lookup_insert_ne.
Qed.

(** The result message of a completed run: it is labelled with the upload
    id and SUCCESS, repeats the request's upload id and raw locator, falls
    back on the object name when the request has no original filename, and
    names the key under which the artifact is in the store. *)
Theorem result_message_locates_the_artifact ev d w w' :
  _decode_pubsub_message (L:=L) ev = inr (JObj d) ->
  truthy (object_name_of d) = true ->
  process_image cfg env ev w = (Ok tt, w') ->
  exists id message entries,
    upload_id_of d = JStr id /\
    pubsub w' = pubsub w ++ [message] /\
    msg_topic message = RESULTS_TOPIC cfg /\
    msg_attrs message = [("upload_id", id); ("status", "SUCCESS")] /\
    msg_data message = str_encode L (json_dumps L (JObj entries)) /\
    assoc_get entries "upload_id" JNull = JStr id /\
    assoc_get entries "status" JNull = JStr "SUCCESS" /\
    assoc_get entries "original_bucket" JNull = bucket_of cfg d /\
    assoc_get entries "original_object" JNull = object_name_of d /\
    assoc_get entries "original_filename" JNull
      = assoc_get d "original_filename" (object_name_of d) /\
    assoc_get entries "processed_bucket" JNull = JStr (PROCESSED_BUCKET cfg) /\
    assoc_get entries "processed_object" JNull = JStr ("grayscale_" +:+ id +:+ ".jpg") /\
    is_Some (gcs w' !! (PROCESSED_BUCKET cfg, "grayscale_" +:+ id +:+ ".jpg")).
Proof.
  intros Hd Ho Hrun. rewrite (process_image_dict cfg env ev w d Hd), Ho in Hrun.
  unfold process_steps, client_name, client_blob_name in Hrun. run_unfold.
  run_cases Hrun.
  do 3 eexists. split; [reflexivity|]. split; [reflexivity|]. simpl.
  do 10 (split; [reflexivity|]).
  unfold processed_name. simpl. rewrite lookup_insert_eq. by eexists.
Qed.
End ProcessImageMore.

(** ** From one handler to the next *)

Section Pipeline.
Context {L : PyLib} (cfg : Config).

(** What a handler decodes from the delivery of a message that holds the
    JSON text of [v]. *)
Lemma delivered_payload ev message v :
  delivers L ev message ->
  msg_data message = str_encode L (json_dumps L v) ->
  round_trips L v ->
  _decode_pubsub_message (L:=L) ev = inr v /\
  LogNotification._decode_pubsub_message (L:=L) ev = inr v.
Proof.
  intros [Hraw Hb64] Hdata (text & Htext & Hloads).
  unfold _decode_pubsub_message, LogNotification._decode_pubsub_message.
  apply String.eqb_neq in Hraw. by rewrite Hraw, Hb64, Hdata, Htext.
Qed.

Lemma raw_object_name_nonempty (env : Env L) file :
  String.eqb (raw_object_name env file) "" = false.
Proof.
  unfold raw_object_name. by destruct (strftime L (env_now env) "%Y%m%d_%H%M%S").
Qed.

(** From Ingress to Processing.  When an upload is accepted with 202 and
    the message published for it is delivered to Processing, the handler
    finds the raw object (no [NotFound]), and when the store answers and
    the uploaded bytes convert, it stores their conversion under
    grayscale_<upload_id>.jpg for the upload id of the 202 response, and
    returns when the queue answers too. *)
Theorem accepted_upload_is_processed (env1 env2 : Env L) request file w response w1
    message ev output :
  upload_image cfg env1 request w = (Ok response, w1) ->
  status response = 202 ->
  files_get (files request) "image" = Some file ->
  pubsub w1 = pubsub w ++ [message] ->
  delivers L ev message ->
  round_trips L
    (message_data cfg (env_uuid4 env1) (raw_object_name env1 file)
       (strftime L (env_now env1) "%Y%m%d_%H%M%S") file) ->
  gcs_read_ok env2 = true -> gcs_write_ok env2 = true ->
  convert_to_grayscale (L:=L) (stream file) = inr output ->
  exists outcome w2 entries rest,
    body response = BodyJson (JObj entries) /\
    assoc_get entries "upload_id" JNull = JStr (env_uuid4 env1) /\
    process_image cfg env2 ev w1 = (outcome, w2) /\
    calls w2 = calls w1 ++
      CallDownload (UPLOADS_BUCKET cfg) (raw_object_name env1 file) true :: rest /\
    gcs w2 !! (PROCESSED_BUCKET cfg, "grayscale_" +:+ env_uuid4 env1 +:+ ".jpg")
      = Some (artifact output) /\
    (pubsub_ok env2 = true -> outcome = Ok tt).
Proof.
  intros Hrun Hst Hf Hpub Hdel Hrt Hr Hw Hconv.
  destruct (upload_image_cases cfg env1 request w) as [[file' Hv]|(r & Hr' & Hs)].
  2:{ rewrite Hr' in Hrun. injection Hrun as <- <-. lia. }
  assert (file' = file) as -> by (destruct Hv as (_ & Hf' & _); congruence).
  rewrite (upload_image_accepted cfg env1 request w file Hv) in Hrun.
  destruct (gcs_write_ok env1); [destruct (pubsub_ok env1)|];
    simpl in Hrun; injection Hrun as <- <-; simpl in Hst; try done.
  simpl in Hpub. apply app_inv_head in Hpub. injection Hpub as <-.
  destruct (delivered_payload ev _ _ Hdel eq_refl Hrt) as [Hd _].
  unfold message_data in Hd.
  rewrite (process_image_dict cfg env2 ev _ _ Hd).
  unfold object_name_of, bucket_of, upload_id_of. simpl.
  rewrite raw_object_name_nonempty. simpl.
  unfold process_steps, client_name, client_blob_name. run_unfold. rewrite Hr. simpl.
  rewrite lookup_insert_eq. simpl. rewrite Hconv, Hw. simpl.
  destruct (pubsub_ok env2); do 4 eexists; (split; [reflexivity|]);
    (split; [reflexivity|]); (split; [reflexivity|]); simpl;
    rewrite <- ?app_assoc; simpl;
    (split; [reflexivity|]); (split; [apply lookup_insert_eq|]); done.
Qed.

(** From Processing to Notification.  When a run of Processing completes
    and the result message it published is delivered to Notification, the
    handler prints one record, which carries the upload id of the request,
    the status SUCCESS, the raw locator, the key of the artifact and the
    time Processing stamped on the message. *)
Theorem processing_result_is_logged (env1 env2 : Env L) ev1 d w w1 message ev2 w2 :
  _decode_pubsub_message (L:=L) ev1 = inr (JObj d) ->
  truthy (object_name_of d) = true ->
  process_image cfg env1 ev1 w = (Ok tt, w1) ->
  pubsub w1 = pubsub w ++ [message] ->
  delivers L ev2 message ->
  round_trips L
    (result_payload cfg env1 (upload_id_of d) (bucket_of cfg d) (object_name_of d)
       (assoc_get d "original_filename" (object_name_of d))) ->
  exists entry w2',
    LogNotification.log_notification env2 ev2 w2 = (Ok tt, w2') /\
    stdout w2' = stdout w2 ++ [json_dumps L (JObj entry)] /\
    assoc_get entry "event_type" JNull = JStr "IMAGE_PROCESSING_COMPLETE" /\
    assoc_get entry "upload_id" JNull = upload_id_of d /\
    assoc_get entry "status" JNull = JStr "SUCCESS" /\
    assoc_get entry "original" JNull
      = JObj [ ("bucket", bucket_of cfg d); ("object", object_name_of d);
               ("filename", assoc_get d "original_filename" (object_name_of d)) ] /\
    assoc_get entry "processed" JNull
      = JObj [ ("bucket", JStr (PROCESSED_BUCKET cfg));
               ("object", JStr (processed_name (L:=L) (upload_id_of d))) ] /\
    assoc_get entry "processed_at" JNull = JStr (isoformat L (env_now env1)) /\
    is_Some (gcs w1 !! (PROCESSED_BUCKET cfg, processed_name (L:=L) (upload_id_of d))).
Proof.
  intros Hd Ho Hrun Hpub Hdel Hrt.
  rewrite (process_image_dict cfg env1 ev1 w d Hd), Ho in Hrun.
  assert (msg_data message = str_encode L (json_dumps L
            (result_payload cfg env1 (upload_id_of d) (bucket_of cfg d) (object_name_of d)
               (assoc_get d "original_filename" (object_name_of d)))) /\
          is_Some (gcs w1 !! (PROCESSED_BUCKET cfg, processed_name (L:=L) (upload_id_of d))))
    as [Hdata Hstored].
  { unfold process_steps, client_name, client_blob_name in Hrun. run_unfold.
    run_cases Hrun. trace_inv.
    split; [congruence|]. rewrite lookup_insert_eq. by eexists. }
  destruct (delivered_payload ev2 _ _ Hdel Hdata Hrt) as [_ Hd2].
  unfold result_payload in Hd2.
  rewrite (log_notification_dict env2 ev2 _ w2 Hd2).
  do 2 eexists. split; [reflexivity|]. simpl. split; [reflexivity|].
  by repeat split.
Qed.
End Pipeline.

(** ** Notification: what it leaves alone and what it does with bad input *)

Section LogNotificationMore.
Context {L : PyLib} (env : Env L).

(** Notification is a sink: whatever the event and the outcome, the store,
    the queue and the record of remote calls are as they were, and at most
    one line is printed, by a run that returns. *)
Theorem log_notification_is_a_sink ev w outcome w' :
  LogNotification.log_notification env ev w = (outcome, w') ->
  gcs w' = gcs w /\ pubsub w' = pubsub w /\ calls w' = calls w /\
  (stdout w' = stdout w \/
   exists line, outcome = Ok tt /\ stdout w' = stdout w ++ [line]).
Proof.
  intros Hrun. unfold LogNotification.log_notification in Hrun. run_unfold.
  run_cases Hrun; repeat split; try by left.
  right. by eexists.
Qed.

(** A message whose decoding raises a [ValueError] (no data, bad base64,
    bad UTF-8, bad JSON) is skipped: the handler returns and prints
    nothing. *)
Theorem log_notification_skips_undecodable ev w exc :
  LogNotification._decode_pubsub_message (L:=L) ev = inl exc ->
  is_ValueError exc = true ->
  LogNotification.log_notification env ev w = (Ok tt, w).
Proof.
  intros Hd Hv. unfold LogNotification.log_notification. run_unfold.
  by rewrite Hd, Hv.
Qed.

(** A payload that is valid JSON but not an object is not skipped: the
    first [payload.get] raises [AttributeError], and nothing is printed. *)
Theorem log_notification_raises_on_non_object ev w v :
  LogNotification._decode_pubsub_message (L:=L) ev = inr v ->
  (forall d, v <> JObj d) ->
  LogNotification.log_notification env ev w = (Raise AttributeError, w).
Proof.
  intros Hd Hv. unfold LogNotification.log_notification. run_unfold. rewrite Hd.
  destruct v; try reflexivity. by destruct (Hv d).
Qed.
End LogNotificationMore.

(** ** The further properties on the sample inputs *)

Lemma photo_passes_validation :
  passes_validation (Sample.post Sample.photo) Sample.photo.
Proof.
  split; [reflexivity|]. split; [reflexivity|]. split; [discriminate|compute_done].
Defined.

Lemma photo_lowercase_passes_validation :
  passes_validation (Sample.post Relay.photo_lowercase) Relay.photo_lowercase.
Proof.
  split; [reflexivity|]. split; [reflexivity|]. split; [discriminate|compute_done].
Defined.

(** With the queue down, PHOTO.JPG is answered with 500 and the handler
    does not raise. *)
Lemma validated_upload_is_answered_202_or_500_witness :
  exists response w',
    upload_image Sample.cfg Relay.env_queue_down (Sample.post Sample.photo)
      Sample.empty_world = (Ok response, w') /\
    status response = 500.
Proof.
  destruct (validated_upload_is_answered_202_or_500 Sample.cfg Relay.env_queue_down
              (Sample.post Sample.photo) Sample.empty_world Sample.photo
              photo_passes_validation)
    as (response & w' & Hrun & [H202|H500] & Hiff).
  - exfalso. apply Hiff in H202. destruct H202 as [_ Hq]. discriminate Hq.
  - exists response, w'. split; [exact Hrun|exact H500].
Defined.

(** When the confirmation of the publish does not arrive in time, the
    caller is told 500, PHOTO.JPG stays in the store and its request stays
    in the queue. *)
Lemma publish_failure_leaves_stored_object_witness :
  exists w',
    upload_image Sample.cfg Relay.env_queue_timeout (Sample.post Sample.photo)
      Sample.empty_world
      = (Ok (jsonify [("error", JStr "Image stored but failed to queue for processing.")] 500),
         w') /\
    gcs w' !! ("raw-bucket", "20240101_120000_0f8fad5b-d9cb-469f-a165-70867728950e.jpg")
      = Some (raw_blob Sample.photo) /\
    pubsub w' = [{| msg_topic := PUBSUB_TOPIC Sample.cfg;
                    msg_data := request_data Sample.cfg Relay.env_queue_timeout Sample.photo;
                    msg_attrs := [("upload_id", "0f8fad5b-d9cb-469f-a165-70867728950e")] |}].
Proof.
  destruct (publish_failure_leaves_stored_object Sample.cfg Relay.env_queue_timeout
              (Sample.post Sample.photo) Sample.empty_world Sample.photo
              photo_passes_validation eq_refl eq_refl)
    as (w' & Hrun & Hstored & [Hsame|Hone] & Hiff & _).
  - exfalso. apply Hiff in Hsame. discriminate Hsame.
  - exists w'. split; [exact Hrun|]. split; [exact Hstored|exact Hone].
Defined.

(** photo.jpg, handed over with its stream read up to the second byte, is
    stored with all four bytes. *)
Lemma accepted_upload_stores_whole_stream_witness :
  stream_pos Relay.photo_lowercase = 2%nat /\
  exists response w' name blob,
    upload_image Sample.cfg Relay.env (Sample.post Relay.photo_lowercase) Sample.empty_world
      = (Ok response, w') /\
    status response = 202 /\
    gcs w' !! ("raw-bucket", name) = Some blob /\
    blob_data blob = Sample.image_bytes.
Proof.
  split; [reflexivity|].
  pose proof (upload_image_queued Sample.cfg Relay.env (Sample.post Relay.photo_lowercase)
                Sample.empty_world Relay.photo_lowercase
                photo_lowercase_passes_validation eq_refl eq_refl) as Hrun.
  assert (status (jsonify [ ("upload_id",   JStr (env_uuid4 Relay.env));
                            ("object_name", JStr (raw_object_name Relay.env Relay.photo_lowercase));
                            ("message",     JStr "Image accepted and queued for processing.");
                            ("status",      JStr "PROCESSING") ] 202) = 202) as Hst
    by reflexivity.
  destruct (accepted_upload_stores_whole_stream Sample.cfg Relay.env _ _ _ _
              Relay.photo_lowercase Hrun Hst eq_refl)
    as (name & blob & entries & _ & _ & _ & _ & Hstored & Hdata).
  do 2 eexists. exists name, blob.
  split; [exact Hrun|]. split; [exact Hst|]. split; [exact Hstored|exact Hdata].
Defined.

(** The request published for PHOTO.JPG names an object that is in the
    store and keeps the name PHOTO.JPG. *)
Lemma published_request_locates_stored_object_witness :
  exists response w' bucket name message entries,
    upload_image Sample.cfg Relay.env (Sample.post Sample.photo) Sample.empty_world
      = (Ok response, w') /\
    status response = 202 /\
    pubsub w' = [message] /\
    msg_data message = str_encode Relay.lib (json_dumps Relay.lib (JObj entries)) /\
    assoc_get entries "bucket" JNull = JStr bucket /\
    assoc_get entries "object_name" JNull = JStr name /\
    assoc_get entries "original_filename" JNull = JStr "PHOTO.JPG" /\
    is_Some (gcs w' !! (bucket, name)).
Proof.
  pose proof (upload_image_queued Sample.cfg Relay.env (Sample.post Sample.photo)
                Sample.empty_world Sample.photo
                photo_passes_validation eq_refl eq_refl) as Hrun.
  assert (status (jsonify [ ("upload_id",   JStr (env_uuid4 Relay.env));
                            ("object_name", JStr (raw_object_name Relay.env Sample.photo));
                            ("message",     JStr "Image accepted and queued for processing.");
                            ("status",      JStr "PROCESSING") ] 202) = 202) as Hst
    by reflexivity.
  destruct (published_request_locates_stored_object Sample.cfg Relay.env _ _ _ _
              Sample.photo Hrun Hst eq_refl)
    as (bucket & name & message & entries & Hpub & _ & Hdata & _ & Hb & Hn & Hf & Hin).
  do 2 eexists. exists bucket, name, message, entries.
  split; [exact Hrun|]. split; [exact Hst|]. split; [exact Hpub|]. split; [exact Hdata|].
  split; [exact Hb|]. split; [exact Hn|]. split; [exact Hf|exact Hin].
Defined.

(** A file named README is rejected. *)
Lemma filename_without_dot_is_rejected_witness :
  (forall n, String.get n (filename Relay.no_extension) <> Some "."%char) /\
  exists response,
    upload_image Sample.cfg Relay.env (Sample.post Relay.no_extension) Sample.empty_world
      = (Ok response, Sample.empty_world) /\
    status response = 400.
Proof.
  assert (forall n, String.get n (filename Relay.no_extension) <> Some "."%char) as Hno
    by (intros n; do 6 (destruct n as [|n]; [discriminate|]); discriminate).
  split; [exact Hno|].
  exact (filename_without_dot_is_rejected Sample.cfg Relay.env
           (Sample.post Relay.no_extension) Sample.empty_world Relay.no_extension
           eq_refl eq_refl Hno).
Defined.

(** PHOTO.JPG and photo.jpg get the same answer. *)
Lemma upload_status_ignores_filename_case_witness :
  lower (filename Sample.photo) = lower (filename Relay.photo_lowercase) /\
  exists response1 w1 response2 w2,
    upload_image Sample.cfg Relay.env (Sample.post Sample.photo) Sample.empty_world
      = (Ok response1, w1) /\
    upload_image Sample.cfg Relay.env (Sample.post Relay.photo_lowercase) Sample.empty_world
      = (Ok response2, w2) /\
    status response1 = status response2.
Proof.
  split; [reflexivity|].
  pose proof (upload_image_queued Sample.cfg Relay.env (Sample.post Sample.photo)
                Sample.empty_world Sample.photo
                photo_passes_validation eq_refl eq_refl) as Hrun1.
  pose proof (upload_image_queued Sample.cfg Relay.env (Sample.post Relay.photo_lowercase)
                Sample.empty_world Relay.photo_lowercase
                photo_lowercase_passes_validation eq_refl eq_refl) as Hrun2.
  do 4 eexists. split; [exact Hrun1|]. split; [exact Hrun2|].
  exact (upload_status_ignores_filename_case Sample.cfg Relay.env
           (Sample.post Sample.photo) (Sample.post Relay.photo_lowercase)
           Sample.photo Relay.photo_lowercase Sample.empty_world _ _ _ _
           eq_refl eq_refl eq_refl eq_refl Hrun1 Hrun2).
Defined.

(** An event without a message is dropped. *)
Lemma poison_message_dropped_witness :
  _decode_pubsub_message (L:=Sample.lib) Relay.no_message_event = inl ValueError /\
  process_image Sample.cfg Sample.env Relay.no_message_event Sample.world
    = (Ok tt, Sample.world).
Proof.
  split; [reflexivity|].
  apply (poison_message_dropped Sample.cfg Sample.env Relay.no_message_event Sample.world).
  left. exists ValueError. split; reflexivity.
Defined.

(** The request for PHOTO.JPG, processed while the confirmation of the
    publish times out: the run raises, and the result message is in the
    queue all the same, after the artifact was written. *)
Lemma process_image_publishes_at_most_once_witness :
  exists w' data attrs name blob,
    process_image Sample.cfg Relay.env_queue_timeout Relay.request_event
      Relay.world_after_upload = (Raise ServiceError, w') /\
    pubsub w' = pubsub Relay.world_after_upload ++
      [{| msg_topic := "image-processing-results"; msg_data := data; msg_attrs := attrs |}] /\
    gcs w' !! ("processed-bucket", name) = Some blob.
Proof.
  pose (w' := snd (process_image Sample.cfg Relay.env_queue_timeout Relay.request_event
                     Relay.world_after_upload)).
  assert (process_image Sample.cfg Relay.env_queue_timeout Relay.request_event
            Relay.world_after_upload = (Raise ServiceError, w')) as Hrun
    by (vm_compute; reflexivity).
  destruct (process_image_publishes_at_most_once Sample.cfg Relay.env_queue_timeout
              Relay.request_event Relay.world_after_upload (Raise ServiceError) w' Hrun)
    as [[Hsame|Hone] _].
  - exfalso. vm_compute in Hsame. discriminate.
  - destruct Hone as (data & attrs & name & blob & Hpub & Hstored & _).
    exists w', data, attrs, name, blob.
    split; [exact Hrun|]. split; [exact Hpub|exact Hstored].
Defined.

(** In the run on the sample request the write follows the download and
    the publish follows the write. *)
Lemma process_image_call_order_witness :
  exists w' download upload publish,
    process_image Sample.cfg Sample.env Sample.request_event Sample.world = (Ok tt, w') /\
    calls w' = calls Sample.world ++ [download; upload; publish] /\
    is_publish publish = true /\
    (exists bucket name, CallDownload bucket name true ∈ [download]) /\
    (exists bucket name blob, CallUpload bucket name blob true ∈ [download; upload]).
Proof.
  pose (w' := snd (process_image Sample.cfg Sample.env Sample.request_event Sample.world)).
  pose (download := CallDownload "raw-bucket" "photo.png" true).
  pose (upload := CallUpload "processed-bucket" "grayscale_abc-123.jpg"
                    (artifact Sample.image_bytes) true).
  pose (publish := match calls w' with [_; _; c] => c | _ => download end).
  assert (process_image Sample.cfg Sample.env Sample.request_event Sample.world
            = (Ok tt, w')) as Hrun by (vm_compute; reflexivity).
  assert (calls w' = calls Sample.world ++ [download; upload; publish]) as Htr
    by (vm_compute; reflexivity).
  assert (is_publish publish = true) as Hpub by reflexivity.
  destruct (process_image_call_order Sample.cfg Sample.env Sample.request_event
              Sample.world (Ok tt) w' [download; upload; publish] Hrun Htr)
    as [Hup Hpb].
  exists w', download, upload, publish.
  split; [exact Hrun|]. split; [exact Htr|]. split; [exact Hpub|]. split.
  - exact (Hup [download] "processed-bucket" "grayscale_abc-123.jpg"
             (artifact Sample.image_bytes) true [publish] eq_refl).
  - exact (Hpb [download; upload] publish [] eq_refl Hpub).
Defined.

(** The raw bucket holds photo.png and not the object the request for
    PHOTO.JPG names: the run raises [NotFound]. *)
Lemma missing_raw_object_raises_not_found_witness :
  gcs Sample.world !! ("raw-bucket", "photo.png")
    = Some {| blob_data := Sample.image_bytes; blob_content_type := "image/png" |} /\
  gcs Sample.world !!
    ("raw-bucket", "20240101_120000_0f8fad5b-d9cb-469f-a165-70867728950e.jpg") = None /\
  exists w',
    process_image Sample.cfg Relay.env Relay.request_event Sample.world
      = (Raise NotFound, w') /\
    calls w' = [CallDownload "raw-bucket"
                  "20240101_120000_0f8fad5b-d9cb-469f-a165-70867728950e.jpg" false] /\
    gcs w' = gcs Sample.world /\ pubsub w' = [].
Proof.
  assert (gcs Sample.world !! ("raw-bucket", "photo.png")
            = Some {| blob_data := Sample.image_bytes; blob_content_type := "image/png" |})
    as Hother by reflexivity.
  assert (gcs Sample.world !!
            ("raw-bucket", "20240101_120000_0f8fad5b-d9cb-469f-a165-70867728950e.jpg") = None)
    as Hnone by reflexivity.
  assert (_decode_pubsub_message (L:=Relay.lib) Relay.request_event
            = inr Relay.request_payload) as Hd by (vm_compute; reflexivity).
  assert ("20240101_120000_0f8fad5b-d9cb-469f-a165-70867728950e.jpg" <> "") as Hne
    by discriminate.
  split; [exact Hother|]. split; [exact Hnone|].
  exact (missing_raw_object_raises_not_found Sample.cfg Relay.env Relay.request_event
           _ "raw-bucket" "20240101_120000_0f8fad5b-d9cb-469f-a165-70867728950e.jpg"
           "photo.png" _ Sample.world Hd eq_refl eq_refl Hne eq_refl Hother Hnone).
Defined.

(** A raw object without bytes cannot be opened: the handler raises and
    writes nothing. *)
Lemma failed_conversion_raises_without_writing_witness :
  convert_to_grayscale (L:=Sample.lib) [] = inl (OtherError "UnidentifiedImageError") /\
  exists w',
    process_image Sample.cfg Sample.env Sample.request_event Relay.world_with_empty_object
      = (Raise (OtherError "UnidentifiedImageError"), w') /\
    calls w' = [CallDownload "raw-bucket" "photo.png" true] /\
    gcs w' = gcs Relay.world_with_empty_object /\ pubsub w' = [].
Proof.
  split; [reflexivity|].
  assert ("photo.png" <> "") as Hne by discriminate.
  exact (failed_conversion_raises_without_writing Sample.cfg Sample.env Sample.request_event
           [ ("upload_id", JStr "abc-123"); ("bucket", JStr "raw-bucket");
             ("object_name", JStr "photo.png") ]
           "raw-bucket" "photo.png"
           {| blob_data := []; blob_content_type := "image/png" |}
           (OtherError "UnidentifiedImageError") Relay.world_with_empty_object
           eq_refl eq_refl eq_refl Hne eq_refl eq_refl eq_refl).
Defined.

(** Processing the sample request leaves the raw object where it was. *)
Lemma process_image_touches_only_the_artifact_witness :
  exists w',
    process_image Sample.cfg Sample.env Sample.request_event Sample.world = (Ok tt, w') /\
    gcs w' !! ("raw-bucket", "photo.png") = gcs Sample.world !! ("raw-bucket", "photo.png").
Proof.
  pose (w' := snd (process_image Sample.cfg Sample.env Sample.request_event Sample.world)).
  assert (process_image Sample.cfg Sample.env Sample.request_event Sample.world
            = (Ok tt, w')) as Hrun by (vm_compute; reflexivity).
  assert (("raw-bucket", "photo.png")
            <> (PROCESSED_BUCKET Sample.cfg,
                processed_name (L:=Sample.lib) (JStr "abc-123"))) as Hne
    by discriminate.
  exists w'. split; [exact Hrun|].
  exact (process_image_touches_only_the_artifact Sample.cfg Sample.env Sample.request_event
           [ ("upload_id", JStr "abc-123"); ("bucket", JStr "raw-bucket");
             ("object_name", JStr "photo.png") ]
           Sample.world (Ok tt) w' eq_refl Hrun "raw-bucket" "photo.png" Hne).
Defined.

(** The result message for the sample request names grayscale_abc-123.jpg,
    which is in the store. *)
Lemma result_message_locates_the_artifact_witness :
  exists w' message entries,
    process_image Sample.cfg Sample.env Sample.request_event Sample.world = (Ok tt, w') /\
    pubsub w' = [message] /\
    msg_attrs message = [("upload_id", "abc-123"); ("status", "SUCCESS")] /\
    msg_data message = str_encode Sample.lib (json_dumps Sample.lib (JObj entries)) /\
    assoc_get entries "processed_object" JNull = JStr "grayscale_abc-123.jpg" /\
    assoc_get entries "original_filename" JNull = JStr "photo.png" /\
    is_Some (gcs w' !! ("processed-bucket", "grayscale_abc-123.jpg")).
Proof.
  pose (w' := snd (process_image Sample.cfg Sample.env Sample.request_event Sample.world)).
  assert (process_image Sample.cfg Sample.env Sample.request_event Sample.world
            = (Ok tt, w')) as Hrun by (vm_compute; reflexivity).
  destruct (result_message_locates_the_artifact Sample.cfg Sample.env Sample.request_event
              [ ("upload_id", JStr "abc-123"); ("bucket", JStr "raw-bucket");
                ("object_name", JStr "photo.png") ]
              Sample.world w' eq_refl eq_refl Hrun)
    as (id & message & entries & Hid & Hpub & _ & Hattrs & Hdata & _ & _ & _ & _
        & Hname & _ & Hobj & Hin).
  injection Hid as <-.
  exists w', message, entries.
  split; [exact Hrun|]. split; [exact Hpub|]. split; [exact Hattrs|].
  split; [exact Hdata|]. split; [exact Hobj|]. split; [exact Hname|exact Hin].
Defined.

(** The sample request delivered a second time leaves the store as the
    first run left it. *)
Lemma redelivery_overwrites_with_same_artifact_witness :
  exists w1 w2,
    process_image Sample.cfg Sample.env Sample.request_event Sample.world = (Ok tt, w1) /\
    process_image Sample.cfg Sample.env_later Sample.request_event w1 = (Ok tt, w2) /\
    gcs w2 = gcs w1.
Proof.
  pose (w1 := snd (process_image Sample.cfg Sample.env Sample.request_event Sample.world)).
  pose (w2 := snd (process_image Sample.cfg Sample.env_later Sample.request_event w1)).
  assert (process_image Sample.cfg Sample.env Sample.request_event Sample.world
            = (Ok tt, w1)) as Hrun1 by (vm_compute; reflexivity).
  assert (process_image Sample.cfg Sample.env_later Sample.request_event w1
            = (Ok tt, w2)) as Hrun2 by (vm_compute; reflexivity).
  assert ((bucket_of Sample.cfg [ ("upload_id", JStr "abc-123"); ("bucket", JStr "raw-bucket");
                                  ("object_name", JStr "photo.png") ],
           object_name_of [ ("upload_id", JStr "abc-123"); ("bucket", JStr "raw-bucket");
                            ("object_name", JStr "photo.png") ])
          <> (JStr (PROCESSED_BUCKET Sample.cfg),
              JStr (processed_name (L:=Sample.lib)
                      (upload_id_of [ ("upload_id", JStr "abc-123");
                                      ("bucket", JStr "raw-bucket");
                                      ("object_name", JStr "photo.png") ])))) as Hne
    by discriminate.
  exists w1, w2. split; [exact Hrun1|]. split; [exact Hrun2|].
  exact (redelivery_overwrites_with_same_artifact Sample.cfg Sample.env Sample.env_later
           Sample.request_event _ Sample.world w1 w2 eq_refl eq_refl Hne Hrun1 Hrun2).
Defined.

(** PHOTO.JPG is uploaded; the request published for it is delivered to
    Processing, which stores grayscale_<upload_id>.jpg for the upload id of
    the 202 response. *)
Lemma accepted_upload_is_processed_witness :
  exists response w1 message outcome w2,
    upload_image Sample.cfg Relay.env (Sample.post Sample.photo) Sample.empty_world
      = (Ok response, w1) /\
    status response = 202 /\
    pubsub w1 = [message] /\
    delivers Relay.lib Relay.request_event message /\
    process_image Sample.cfg Relay.env_later Relay.request_event w1 = (outcome, w2) /\
    outcome = Ok tt /\
    gcs w2 !! ("processed-bucket", "grayscale_0f8fad5b-d9cb-469f-a165-70867728950e.jpg")
      = Some (artifact Sample.image_bytes).
Proof.
  pose (message := {| msg_topic := "image-processing-requests";
                      msg_data := request_data Sample.cfg Relay.env Sample.photo;
                      msg_attrs := [("upload_id", env_uuid4 Relay.env)] |}).
  pose proof (upload_image_queued Sample.cfg Relay.env (Sample.post Sample.photo)
                Sample.empty_world Sample.photo
                photo_passes_validation eq_refl eq_refl) as Hrun.
  assert (delivers Relay.lib Relay.request_event message) as Hdel
    by (split; [discriminate|vm_compute; reflexivity]).
  assert (round_trips Relay.lib
            (message_data Sample.cfg (env_uuid4 Relay.env)
               (raw_object_name Relay.env Sample.photo)
               (strftime Relay.lib (env_now Relay.env) "%Y%m%d_%H%M%S") Sample.photo))
    as Hrt by (eexists; split; vm_compute; reflexivity).
  destruct (accepted_upload_is_processed Sample.cfg Relay.env Relay.env_later
              (Sample.post Sample.photo) Sample.photo Sample.empty_world _ _
              message Relay.request_event Sample.image_bytes
              Hrun eq_refl eq_refl eq_refl Hdel Hrt eq_refl eq_refl eq_refl)
    as (outcome & w2 & entries & rest & _ & _ & Hproc & _ & Hstored & Hok).
  do 2 eexists. exists message, outcome, w2.
  split; [exact Hrun|]. split; [reflexivity|]. split; [reflexivity|]. split; [exact Hdel|].
  split; [exact Hproc|]. split; [exact (Hok eq_refl)|exact Hstored].
Defined.

(** The request for PHOTO.JPG is processed; the result published for it is
    delivered to Notification, which prints a record with the same upload
    id and the key of the artifact. *)
Lemma processing_result_is_logged_witness :
  exists w1 message entry w2,
    process_image Sample.cfg Relay.env_later Relay.request_event Relay.world_after_upload
      = (Ok tt, w1) /\
    pubsub w1 = pubsub Relay.world_after_upload ++ [message] /\
    delivers Relay.lib Relay.result_event message /\
    LogNotification.log_notification Relay.env_later Relay.result_event Sample.empty_world
      = (Ok tt, w2) /\
    stdout w2 = [json_dumps Relay.lib (JObj entry)] /\
    assoc_get entry "upload_id" JNull = JStr "0f8fad5b-d9cb-469f-a165-70867728950e" /\
    assoc_get entry "status" JNull = JStr "SUCCESS" /\
    assoc_get entry "processed" JNull
      = JObj [ ("bucket", JStr "processed-bucket");
               ("object", JStr "grayscale_0f8fad5b-d9cb-469f-a165-70867728950e.jpg") ].
Proof.
  pose (w0 := Relay.world_after_upload).
  pose (w1 := snd (process_image Sample.cfg Relay.env_later Relay.request_event w0)).
  pose (d := match Relay.request_payload with JObj d => d | _ => [] end).
  pose (message :=
          {| msg_topic := "image-processing-results";
             msg_data := str_encode Relay.lib (json_dumps Relay.lib
               (result_payload Sample.cfg Relay.env_later (upload_id_of d)
                  (bucket_of Sample.cfg d) (object_name_of d)
                  (assoc_get d "original_filename" (object_name_of d))));
             msg_attrs := [("upload_id", "0f8fad5b-d9cb-469f-a165-70867728950e");
                           ("status", "SUCCESS")] |}).
  assert (process_image Sample.cfg Relay.env_later Relay.request_event w0 = (Ok tt, w1))
    as Hrun by (vm_compute; reflexivity).
  assert (pubsub w1 = pubsub w0 ++ [message]) as Hpub by (vm_compute; reflexivity).
  assert (delivers Relay.lib Relay.result_event message) as Hdel
    by (split; [discriminate|vm_compute; reflexivity]).
  assert (round_trips Relay.lib
            (result_payload Sample.cfg Relay.env_later (upload_id_of d)
               (bucket_of Sample.cfg d) (object_name_of d)
               (assoc_get d "original_filename" (object_name_of d)))) as Hrt
    by (eexists; split; vm_compute; reflexivity).
  assert (_decode_pubsub_message (L:=Relay.lib) Relay.request_event = inr (JObj d)) as Hd
    by (vm_compute; reflexivity).
  destruct (processing_result_is_logged Sample.cfg Relay.env_later Relay.env_later
              Relay.request_event d w0 w1 message Relay.result_event Sample.empty_world
              Hd eq_refl Hrun Hpub Hdel Hrt)
    as (entry & w2 & Hlog & Hout & _ & Hid & Hstatus & _ & Hprocessed & _).
  exists w1, message, entry, w2.
  split; [exact Hrun|]. split; [exact Hpub|]. split; [exact Hdel|]. split; [exact Hlog|].
  split; [exact Hout|]. split; [exact Hid|]. split; [exact Hstatus|exact Hprocessed].
Defined.

(** Logging the sample result leaves store and queue alone and prints one
    line. *)
Lemma log_notification_is_a_sink_witness :
  exists w' line,
    LogNotification.log_notification Sample.env Sample.result_event Sample.world
      = (Ok tt, w') /\
    gcs w' = gcs Sample.world /\ pubsub w' = pubsub Sample.world /\
    calls w' = calls Sample.world /\ stdout w' = stdout Sample.world ++ [line].
Proof.
  pose (w' := snd (LogNotification.log_notification Sample.env Sample.result_event
                     Sample.world)).
  assert (LogNotification.log_notification Sample.env Sample.result_event Sample.world
            = (Ok tt, w')) as Hrun by (vm_compute; reflexivity).
  destruct (log_notification_is_a_sink Sample.env Sample.result_event Sample.world
              (Ok tt) w' Hrun) as (Hg & Hp & Hc & [Hsame|(line & _ & Hline)]).
  - exfalso. vm_compute in Hsame. discriminate.
  - exists w', line. split; [exact Hrun|]. split; [exact Hg|]. split; [exact Hp|].
    split; [exact Hc|exact Hline].
Defined.

(** An event without a message is skipped. *)
Lemma log_notification_skips_undecodable_witness :
  LogNotification._decode_pubsub_message (L:=Sample.lib) Relay.no_message_event
    = inl ValueError /\
  LogNotification.log_notification Sample.env Relay.no_message_event Sample.empty_world
    = (Ok tt, Sample.empty_world).
Proof.
  split; [reflexivity|].
  exact (log_notification_skips_undecodable Sample.env Relay.no_message_event
           Sample.empty_world ValueError eq_refl eq_refl).
Defined.

(** A message whose payload is the JSON text of an empty list makes
    Notification raise. *)
Lemma log_notification_raises_on_non_object_witness :
  LogNotification._decode_pubsub_message (L:=Sample.lib) Sample.list_event
    = inr (JArr []) /\
  LogNotification.log_notification Sample.env Sample.list_event Sample.empty_world
    = (Raise AttributeError, Sample.empty_world).
Proof.
  split; [reflexivity|].
  apply (log_notification_raises_on_non_object Sample.env Sample.list_event
           Sample.empty_world (JArr []) eq_refl).
  intros d. discriminate.
Defined.
